(** * purei9_unofficial: the cloud (v1) robot handle, its state cache,
      power-mode duality, paginated history, maps and the account checksum.

    Shallow embedding of [src/purei9_unofficial/cloud.py] and of the
    history, maps and credentials code of [src/purei9_unofficial/__main__.py].

    - JSON payloads ([r.json()], request bodies, websocket frames) are values
      of [json]; Python dicts with string keys are [gmap string _].  JSON
      numbers are integers in this model.
    - Python exceptions are values of [exn]; a call yields an [outcome].
    - The network is an oracle [Env]: the answer to a request is a function
      of the requests and answers seen so far (the trace) and of the request.
      Every request the code issues is appended to the trace, so "how many
      fetches happened" is a question about the trace.
    - Methods of [CloudRobot] are state transformers over [world]: the
      handle's cache and the trace. *)

From stdpp Require Import gmap strings list.
From Stdlib Require Import ZArith Lia.

Local Set Warnings "-register-all".
Local Open Scope Z_scope.

(* ================================================================== *)
(** ** JSON values and the Python operations the code applies to them *)
(* ================================================================== *)

Inductive json : Type :=
| JNull
| JBool (b : bool)
| JInt (z : Z)
| JStr (s : string)
| JArr (l : list json)
| JObj (m : gmap string json).

Inductive exn : Type :=
| Exception (msg : string)        (* raise Exception("...") *)
| KeyError (key : string)
| TypeError
| ValueError
| UnicodeEncodeError
| JSONDecodeError
| TransportError (detail : string)
| RecursionError.                  (* the interpreter's recursion limit *)

Inductive outcome (A : Type) : Type :=
| Ok (a : A)
| Raise (e : exn)
| OutOfFuel.
Arguments Ok {A} a.
Arguments Raise {A} e.
Arguments OutOfFuel {A}.

(** What the environment gives back for one request: an answer, or the
    exception the transport raises. *)
Inductive reply (A : Type) : Type :=
| Answer (a : A)
| Failure (e : exn).
Arguments Answer {A} a.
Arguments Failure {A} e.

Definition of_reply {A} (r : reply A) : outcome A :=
  match r with
  | Answer a => Ok a
  | Failure e => Raise e
  end.

Module Py.

(** [x is not None] / [x != None] on a decoded JSON value. *)
Definition is_not_None (j : json) : bool :=
  match j with JNull => false | _ => true end.

(** Truth value of a decoded JSON value ([if x:]). *)
Definition truthy (j : json) : bool :=
  match j with
  | JNull => false
  | JBool b => b
  | JInt z => negb (Z.eqb z 0)
  | JStr s => negb (String.eqb s "")
  | JArr l => match l with [] => false | _ => true end
  | JObj m => negb (Nat.eqb (size m) 0)
  end.

(** [k in c]: key test on a dict, element test on a list, substring test
    on a str; the other JSON types are not containers. *)
Definition contains (k : string) (c : json) : outcome bool :=
  match c with
  | JObj m => Ok (match m !! k with Some _ => true | None => false end)
  | JArr l => Ok (existsb (fun x => match x with
                                    | JStr s => String.eqb s k
                                    | _ => false end) l)
  | JStr s => Ok (match String.index 0 k s with Some _ => true | None => false end)
  | JNull | JBool _ | JInt _ => Raise TypeError
  end.

(** [c[k]] with a str key [k]. *)
Definition getitem (c : json) (k : string) : outcome json :=
  match c with
  | JObj m => match m !! k with Some v => Ok v | None => Raise (KeyError k) end
  | _ => Raise TypeError
  end.

(** ["literal" + x]: defined when [x] is a str. *)
Definition str_add (s : string) (x : json) : outcome string :=
  match x with
  | JStr t => Ok (s +:+ t)
  | _ => Raise TypeError
  end.

Fixpoint chars (s : string) : list json :=
  match s with
  | EmptyString => []
  | String a s' => JStr (String a EmptyString) :: chars s'
  end.

(** The elements [for x in c] visits.  A dict yields its keys. *)
Definition iter (c : json) : outcome (list json) :=
  match c with
  | JArr l => Ok l
  | JStr s => Ok (chars s)
  | JObj m => Ok (JStr <$> (map_to_list m).*1)
  | JNull | JBool _ | JInt _ => Raise TypeError
  end.

End Py.

(* ================================================================== *)
(** ** The power-mode vocabulary *)
(* ================================================================== *)

Module PowerMode.

(** Modelled from the spec: [common.py], which declares the [PowerMode]
    enum, is not among the sources.  Section 3 of the specification gives
    its members, LOW, MEDIUM and HIGH; the integer code of each member is
    not given, so the codes are a parameter ([value]) of everything that
    uses them. *)
Inductive t : Type := LOW | MEDIUM | HIGH.

#[global] Instance eq_dec : EqDecision t.
Proof. solve_decision. Defined.

Definition members : list t := [LOW; MEDIUM; HIGH].

(** [str(mode)] *)
Definition str (m : t) : string :=
  match m with
  | LOW => "PowerMode.LOW"
  | MEDIUM => "PowerMode.MEDIUM"
  | HIGH => "PowerMode.HIGH"
  end.

Section Codes.

Variable value : t -> Z.

(** The member whose code is [v], as the enum's lookup by value finds it. *)
Definition of_value (v : Z) : outcome t :=
  match List.find (fun m => Z.eqb (value m) v) members with
  | Some m => Ok m
  | None => Raise ValueError
  end.

(** [PowerMode(x)] on a decoded JSON value.  [True] and [False] compare
    (and hash) equal to 1 and 0; no str, list, dict or [None] equals an
    integer code. *)
Definition call (x : json) : outcome t :=
  match x with
  | JInt v => of_value v
  | JBool b => of_value (Z.b2z b)
  | JNull | JStr _ | JArr _ | JObj _ => Raise ValueError
  end.

End Codes.

End PowerMode.

(* ================================================================== *)
(** ** The transport boundary *)
(* ================================================================== *)

Record http_request : Type := HttpRequest {
  rq_method : string;
  rq_url : string;
  rq_auth : option (string * string);      (* HTTPBasicAuth(user, password) *)
  rq_json : option json                   (* the json= keyword *)
}.

Record http_response : Type := HttpResponse {
  status_code : Z;
  content : option json        (* [None]: the body does not decode as JSON *)
}.

Inductive ws_op : Type :=
| WsConnect (url : string) (header : gmap string string)
| WsSend (frame : json)                   (* the value given to json.dumps *)
| WsRecv
| WsClose.

Inductive event : Type :=
| EvHttp (rq : http_request) (rs : reply http_response)
| EvWs (op : ws_op) (rs : reply string).

(** Modelled from the spec: [util.py] ([do_http]) is not among the sources.
    Sections 5 and 6 describe every informational call as one blocking
    HTTPS request/response that either yields the response or surfaces a
    transport error; the [websocket] calls are library calls of the same
    shape.  Both are answered by the environment, as a function of the
    trace so far and of the request. *)
Record Env : Type := MkEnv {
  http_oracle : list event -> http_request -> reply http_response;
  ws_oracle : list event -> ws_op -> reply string
}.

(* ================================================================== *)
(** ** State: the handle's cache and the trace *)
(* ================================================================== *)

(** Modelled from the spec: [util.py] ([CachedData]) is not among the
    sources.  Section 4.1: the cache holds the last fetched snapshot, if
    any, and a dirty flag.  These are the instance attributes. *)
Record cache_state : Type := MkCache {
  cache_data : option json;
  cache_dirty : bool
}.

Record world : Type := MkWorld {
  cache : cache_state;
  trace : list event
}.

Definition M (A : Type) : Type := world -> outcome A * world.

Definition ret {A} (a : A) : M A := fun w => (Ok a, w).

Definition raise {A} (e : exn) : M A := fun w => (Raise e, w).

Definition bind {A B} (c : M A) (k : A -> M B) : M B :=
  fun w =>
    match c w with
    | (Ok a, w') => k a w'
    | (Raise e, w') => (Raise e, w')
    | (OutOfFuel, w') => (OutOfFuel, w')
    end.

Definition lift {A} (r : outcome A) : M A := fun w => (r, w).

(** [try: body finally: fin].  The finaliser always runs; when it raises,
    its exception replaces the outcome of the body. *)
Definition try_finally {A} (body : M A) (fin : M unit) : M A :=
  fun w =>
    let '(r, w1) := body w in
    match fin w1 with
    | (Ok _, w2) => (r, w2)
    | (Raise e, w2) => (Raise e, w2)
    | (OutOfFuel, w2) => (OutOfFuel, w2)
    end.

Declare Scope py_scope.
Delimit Scope py_scope with py.
Notation "'do' x <- c ; k" := (bind c (fun x => k))
  (at level 10, x name, c at level 100, k at level 200) : py_scope.
Notation "'exec' c ; k" := (bind c (fun _ => k))
  (at level 10, c at level 100, k at level 200) : py_scope.
Local Open Scope py_scope.

(** Bind for pure, fallible computations. *)
Definition obind {A B} (r : outcome A) (k : A -> outcome B) : outcome B :=
  match r with
  | Ok a => k a
  | Raise e => Raise e
  | OutOfFuel => OutOfFuel
  end.
Notation "'val' x <- r ; k" := (obind r (fun x => k))
  (at level 10, x name, r at level 100, k at level 200) : py_scope.

Definition get_cache : M cache_state := fun w => (Ok (cache w), w).

Definition set_cache (c : cache_state) : M unit :=
  fun w => (Ok tt, {| cache := c; trace := trace w |}).

(** [d[k]] on a dict of strings. *)
Definition dict_get (d : gmap string string) (k : string) : outcome string :=
  match d !! k with
  | Some v => Ok v
  | None => Raise (KeyError k)
  end.

(** [r.json()] *)
Definition response_json (r : http_response) : outcome json :=
  match content r with
  | Some js => Ok js
  | None => Raise JSONDecodeError
  end.

Section Transport.

Variable env : Env.

(** Modelled from the spec: [util.py] ([do_http]) is not among the
    sources.  Sections 5, 6 and 7: one blocking HTTPS round trip, not
    retried by the core, that yields the response or raises the transport's
    error.  The request and its answer are recorded in the trace. *)
Definition do_http (rq : http_request) : M http_response :=
  fun w =>
    let rs := http_oracle env (trace w) rq in
    (of_reply rs, {| cache := cache w; trace := trace w ++ [EvHttp rq rs] |}).

(** One call on the [websocket.WebSocket] object ([connect], [send],
    [recv], [close]), recorded in the trace. *)
Definition ws_call (op : ws_op) : M string :=
  fun w =>
    let rs := ws_oracle env (trace w) op in
    (of_reply rs, {| cache := cache w; trace := trace w ++ [EvWs op rs] |}).

End Transport.

(* ================================================================== *)
(** ** CachedData *)
(* ================================================================== *)

Module CachedData.

(** Modelled from the spec: [util.py] ([CachedData.__init__]) is not among
    the sources.  Section 4.1: a handle starts with no snapshot, so its
    first read fetches. *)
Definition init : cache_state :=
  {| cache_data := None; cache_dirty := false |}.

(** Modelled from the spec: [util.py] ([CachedData._getinfo]) is not
    among the sources.  Section 4.1: return the last fetched snapshot if
    present and not marked dirty, otherwise perform a backend fetch
    ([self._getinfo_inner()]), store the result, clear the dirty flag and
    return it.  Section 7: a failed read leaves the cache untouched. *)
Definition _getinfo (_getinfo_inner : M json) : M json :=
  do c <- get_cache;
  match cache_data c, cache_dirty c with
  | Some snapshot, false => ret snapshot
  | _, _ =>
      do snapshot <- _getinfo_inner;
      exec set_cache {| cache_data := Some snapshot; cache_dirty := false |};
      ret snapshot
  end.

(** Modelled from the spec: [util.py] ([CachedData._mark_changed]) is not
    among the sources.  Section 4.1: set the dirty flag unconditionally,
    with no backend call. *)
Definition _mark_changed : M unit :=
  do c <- get_cache;
  set_cache {| cache_data := cache_data c; cache_dirty := true |}.

End CachedData.

(* ================================================================== *)
(** ** Library functions used by [CloudClient.chksum] *)
(* ================================================================== *)

(** A Python [str] whose characters matter is a list of code points; a
    [bytes] value is a list of octets (integers below 256). *)
Definition codepoints (s : string) : list Z :=
  (fun a => Z.of_N (Ascii.N_of_ascii a)) <$> String.list_ascii_of_string s.

Definition ascii_str (bs : list Z) : string :=
  String.string_of_list_ascii ((fun b => Ascii.ascii_of_N (Z.to_N b)) <$> bs).

Module Codec.

(** [sys.byteorder] of the interpreter's host. *)
Inductive byteorder : Type := Little | Big.

Definition unit_bytes (bo : byteorder) (u : Z) : list Z :=
  match bo with
  | Little => [u mod 256; u / 256]
  | Big => [u / 256; u mod 256]
  end.

(** The 16-bit code units of one code point; a lone surrogate cannot be
    encoded. *)
Definition units (cp : Z) : outcome (list Z) :=
  if (cp <? 0) || (0x10FFFF <? cp) then Raise UnicodeEncodeError
  else if (0xD800 <=? cp) && (cp <? 0xE000) then Raise UnicodeEncodeError
  else if cp <? 0x10000 then Ok [cp]
  else
    let v := cp - 0x10000 in
    Ok [0xD800 + Z.shiftr v 10; 0xDC00 + Z.land v 0x3FF].

Fixpoint encode_units (bo : byteorder) (s : list Z) : outcome (list Z) :=
  match s with
  | [] => Ok []
  | cp :: s' =>
      val us <- units cp;
      val rest <- encode_units bo s';
      Ok (concat (unit_bytes bo <$> us) ++ rest)
  end.

(** [s.encode("utf-16")]: a byte-order mark, then the code units, both in
    the byte order of the host. *)
Definition encode_utf_16 (bo : byteorder) (s : list Z) : outcome (list Z) :=
  val body <- encode_units bo s;
  Ok (unit_bytes bo 0xFEFF ++ body).

(** [s.encode("utf-16-le")], the UTF-16LE of the specification. *)
Definition encode_utf_16_le (s : list Z) : outcome (list Z) :=
  encode_units Little s.

End Codec.

Module SHA256.

Definition w32 (x : Z) : Z := x mod 2 ^ 32.
Definition add (x y : Z) : Z := w32 (x + y).
Definition rotr (n x : Z) : Z :=
  w32 (Z.lor (Z.shiftr x n) (Z.shiftl x (32 - n))).
Definition shr (n x : Z) : Z := Z.shiftr x n.

Definition Ch (x y z : Z) : Z :=
  Z.lxor (Z.land x y) (Z.land (Z.lxor x 0xFFFFFFFF) z).
Definition Maj (x y z : Z) : Z :=
  Z.lxor (Z.lxor (Z.land x y) (Z.land x z)) (Z.land y z).
Definition Sigma0 (x : Z) : Z := Z.lxor (Z.lxor (rotr 2 x) (rotr 13 x)) (rotr 22 x).
Definition Sigma1 (x : Z) : Z := Z.lxor (Z.lxor (rotr 6 x) (rotr 11 x)) (rotr 25 x).
Definition sigma0 (x : Z) : Z := Z.lxor (Z.lxor (rotr 7 x) (rotr 18 x)) (shr 3 x).
Definition sigma1 (x : Z) : Z := Z.lxor (Z.lxor (rotr 17 x) (rotr 19 x)) (shr 10 x).

(** The first [n] primes, by trial division. *)
Definition is_prime (p : Z) : bool :=
  forallb (fun d => negb (p mod Z.of_nat d =? 0)) (seq 2 (Z.to_nat p - 2)).

Definition first_primes (n : nat) : list Z :=
  firstn n (List.filter is_prime (Z.of_nat <$> seq 2 400)).

(** Integer cube root, one bit at a time from bit [bits - 1] down. *)
Fixpoint cube_root (bits : nat) (x r : Z) : Z :=
  match bits with
  | O => r
  | S b =>
      let r' := r + 2 ^ Z.of_nat b in
      cube_root b x (if r' * r' * r' <=? x then r' else r)
  end.

(** The round constants: the first 32 bits of the fractional parts of the
    cube roots of the first 64 primes. *)
Definition K : list Z :=
  Eval vm_compute in (fun p => w32 (cube_root 36 (p * 2 ^ 96) 0)) <$> first_primes 64.

(** The initial hash value: the same of the square roots of the first 8. *)
Definition H0 : list Z :=
  Eval vm_compute in (fun p => w32 (Z.sqrt (p * 2 ^ 64))) <$> first_primes 8.

(** Big-endian octets of a value on [n] octets. *)
Fixpoint be_bytes (n : nat) (x : Z) : list Z :=
  match n with
  | O => []
  | S n' => be_bytes n' (x / 256) ++ [x mod 256]
  end.

Definition be_word (bs : list Z) : Z :=
  fold_left (fun acc b => acc * 256 + b) bs 0.

Fixpoint chunks {A} (count size : nat) (l : list A) : list (list A) :=
  match count with
  | O => []
  | S count' => firstn size l :: chunks count' size (skipn size l)
  end.

Definition pad (msg : list Z) : list Z :=
  let len := Z.of_nat (length msg) in
  msg ++ [0x80] ++ repeat 0 (Z.to_nat ((55 - len) mod 64)) ++ be_bytes 8 (8 * len).

(** One round: the working variables [a..h] and the sliding window of the
    last sixteen schedule words. *)
Definition round (st : list Z * list Z) (k : Z) : list Z * list Z :=
  match st with
  | ([a; b; c; d; e; f; g; h], win) =>
      let w := nth 0 win 0 in
      let t1 := add (add (add (add h (Sigma1 e)) (Ch e f g)) k) w in
      let t2 := add (Sigma0 a) (Maj a b c) in
      let next := add (add (add (sigma1 (nth 14 win 0)) (nth 9 win 0))
                           (sigma0 (nth 1 win 0))) w in
      ([add t1 t2; a; b; c; add d t1; e; f; g], tl win ++ [next])
  | _ => st
  end.

Definition compress (h : list Z) (block : list Z) : list Z :=
  let win := be_word <$> chunks 16 4 block in
  let '(v, _) := fold_left round K (h, win) in
  zip_with add h v.

Definition digest (msg : list Z) : list Z :=
  let padded := pad msg in
  let blocks := chunks (length padded / 64) 64 padded in
  concat (be_bytes 4 <$> fold_left compress blocks H0).

End SHA256.

Module Base64.

Definition alphabet : string :=
  "ABCDEFGHIJKLMNOPQRSTUVWXYZabcdefghijklmnopqrstuvwxyz0123456789+/".

Definition digit (i : Z) : Z :=
  match String.get (Z.to_nat i) alphabet with
  | Some a => Z.of_N (Ascii.N_of_ascii a)
  | None => 0
  end.

Definition pad_char : Z := 61.

(** [base64.b64encode] *)
Fixpoint b64encode (bs : list Z) : list Z :=
  match bs with
  | [] => []
  | [a] =>
      [digit (a / 4); digit ((a mod 4) * 16); pad_char; pad_char]
  | [a; b] =>
      [digit (a / 4); digit ((a mod 4) * 16 + b / 16);
       digit ((b mod 16) * 4); pad_char]
  | a :: b :: c :: rest =>
      [digit (a / 4); digit ((a mod 4) * 16 + b / 16);
       digit ((b mod 16) * 4 + c / 64); digit (c mod 64)]
      ++ b64encode rest
  end.

End Base64.

Definition hex (bs : list Z) : string :=
  let d (n : Z) := match String.get (Z.to_nat n) "0123456789abcdef" with
                   | Some a => a | None => Ascii.zero end in
  String.string_of_list_ascii (concat ((fun b => [d (b / 16); d (b mod 16)]) <$> bs)).

(* ================================================================== *)
(** ** CloudClient *)
(* ================================================================== *)

Module CloudClient.

Record t : Type := Make {
  apiurl : string;
  credentials : gmap string string;
  httpauth : string * string             (* HTTPBasicAuth(email, password) *)
}.

Definition salt : string := "947X6kdLJyrhlCDzUyzFwT4s4NZL3O8eLs0PE4Hi7hU=".

(** [chksum(pw)]; [buf[2:]] drops the first two octets. *)
Definition chksum (bo : Codec.byteorder) (pw : list Z) : outcome string :=
  let buf := pw ++ codepoints salt in
  val buf <- Codec.encode_utf_16 bo buf;
  let buf := drop 2 buf in
  Ok (ascii_str (Base64.b64encode (SHA256.digest buf))).

(** [CloudClient.__init__(email, password)] *)
Definition init (bo : Codec.byteorder) (email : string) (password : list Z)
  : outcome t :=
  val password <- chksum bo password;
  Ok {| apiurl := "https://mobile.rvccloud.electrolux.com/api/v1";
        credentials := {[ "AccountPassword" := password; "Email" := email ]};
        httpauth := (email, password) |}.

End CloudClient.

(* ================================================================== *)
(** ** CloudRobot *)
(* ================================================================== *)

Definition websocket_url : string :=
  "wss://mobile.rvccloud.electrolux.com/api/v1/websocket/AppUser".

Definition image_url_prefix : string :=
  "https://mobile.rvccloud.electrolux.com/image/map/png/".

Module CloudZone.

Record t : Type := Make {
  id : json;
  name : json;
  type : json;
  roomcategory : json
}.

(** [CloudZone.__init__(cloudmap, js)]; the back references to the map and
    the client are the map that holds the zone. *)
Definition init (js : json) : outcome t :=
  val id <- Py.getitem js "Id";
  val name <- Py.getitem js "Name";
  val type <- Py.getitem js "ZoneType";
  val roomcategory <- Py.getitem js "RoomCategory";
  Ok {| id := id; name := name; type := type; roomcategory := roomcategory |}.

End CloudZone.

Module CloudRobot.

(** The immutable attributes of a [CloudRobot]; its [CachedData] part
    lives in [world]. *)
Record t : Type := Make {
  cloudclient : CloudClient.t;
  id : string
}.

Section Methods.

Variable env : Env.
Variable PowerMode_value : PowerMode.t -> Z.
Variable self : t.

Definition _getinfo_inner : M json :=
  do email <- lift (dict_get (CloudClient.credentials (cloudclient self)) "Email");
  do password <- lift (dict_get (CloudClient.credentials (cloudclient self))
                                "AccountPassword");
  do r <- do_http env {|
    rq_method := "POST";
    rq_url := CloudClient.apiurl (cloudclient self) +:+ "/robots/AppUpdate";
    rq_auth := Some (CloudClient.httpauth (cloudclient self));
    rq_json := Some (JObj {[ "RobotID" := JStr (id self);
                             "Email" := JStr email;
                             "AccountPassword" := JStr password ]}) |};
  lift (response_json r).

(** Inherited from [CachedData]. *)
Definition _getinfo : M json := CachedData._getinfo _getinfo_inner.
Definition _mark_changed : M unit := CachedData._mark_changed.

(** [i[k] if k in i else None] *)
Definition field_or_None (i : json) (k : string) : outcome json :=
  val present <- Py.contains k i;
  if present then Py.getitem i k else Ok JNull.

Definition getpowermode : M PowerMode.t :=
  do i <- _getinfo;
  do powermode <- lift (field_or_None i "PowerMode");
  do isecomode <- lift (field_or_None i "EcoMode");
  if Py.is_not_None powermode then
    lift (PowerMode.call PowerMode_value powermode)
  else if Py.is_not_None isecomode then
    if Py.truthy isecomode then ret PowerMode.MEDIUM else ret PowerMode.HIGH
  else
    ret PowerMode.MEDIUM.

Definition _sendCommand (body : json) : M bool :=
  let headers := <["RobotId" := id self]> (CloudClient.credentials (cloudclient self)) in
  try_finally
    (exec ws_call env (WsConnect websocket_url headers);
     exec ws_call env (WsSend (JObj {[ "Type" := JInt 1;
                                       "Command" := JStr "AppUpdate";
                                       "Body" := body ]}));
     exec ws_call env WsRecv;
     ret true)
    (exec _mark_changed;
     exec ws_call env WsClose;
     ret tt).

Definition _sendCleanCommand (command : Z) : M bool :=
  _sendCommand (JObj {[ "CleaningCommand" := JInt command ]}).

Definition startclean : M bool := _sendCleanCommand 1.
Definition gohome : M bool := _sendCleanCommand 3.
Definition pauseclean : M bool := _sendCleanCommand 4.
Definition stopclean : M bool := _sendCleanCommand 5.

Definition setpowermode (mode : PowerMode.t) : M unit :=
  do i <- _getinfo;
  do powermode <- lift (field_or_None i "PowerMode");
  do isecomode <- lift (field_or_None i "EcoMode");
  if Py.is_not_None powermode then
    exec _sendCommand (JObj {[ "PowerMode" := JInt (PowerMode_value mode) ]});
    ret tt
  else if Py.is_not_None isecomode then
    if decide (mode = PowerMode.MEDIUM) then
      exec _sendCommand (JObj {[ "EcoMode" := JBool true ]});
      ret tt
    else if decide (mode = PowerMode.HIGH) then
      exec _sendCommand (JObj {[ "EcoMode" := JBool false ]});
      ret tt
    else
      raise (Exception ("Robot does not support " +:+ PowerMode.str mode))
  else
    raise (Exception "Robot does not support setting powermode").

(** The [lambda x: {...}] of [getCleaningSessions]. *)
Definition session_of_item (x : json) : outcome json :=
  val timestamp <- Py.getitem x "TimeStamp";
  val cleaned_area <- Py.getitem x "CleanedArea";
  val cs <- Py.getitem x "CleaningSession";
  val url <- Py.getitem cs "MapImageUrl";
  val image <-
    (if Py.truthy url then
       val cs <- Py.getitem x "CleaningSession";
       val url <- Py.getitem cs "MapImageUrl";
       val s <- Py.str_add image_url_prefix url;
       Ok (JStr s)
     else Ok JNull);
  val cs <- Py.getitem x "CleaningSession";
  val map <- Py.getitem cs "PersistentMapId";
  val cs <- Py.getitem x "CleaningSession";
  val status <- Py.getitem cs "Completion";
  val cs <- Py.getitem x "CleaningSession";
  val usererror <- Py.getitem cs "RobotUserError";
  val cs <- Py.getitem x "CleaningSession";
  val internalerror <- Py.getitem cs "RobotInternalError";
  Ok (JObj {[ "timestamp" := timestamp;
              "cleaned_area" := cleaned_area;
              "image" := image;
              "map" := map;
              "status" := status;
              "usererror" := usererror;
              "internalerror" := internalerror ]}).

(** [list(map(session_of_item, filter(lambda x: x["CleaningSession"] != None, xs)))]:
    [filter] and [map] are lazy, so the elements are tested and converted
    one after the other. *)
Fixpoint sessions_of_items (xs : list json) : outcome (list json) :=
  match xs with
  | [] => Ok []
  | x :: xs' =>
      val cs <- Py.getitem x "CleaningSession";
      if Py.is_not_None cs then
        val d <- session_of_item x;
        val ds <- sessions_of_items xs';
        Ok (d :: ds)
      else sessions_of_items xs'
  end.

(** The request [getCleaningSessions(nextptr)] hands to [do_http], once the
    two credentials are read. *)
Definition CleanedAreas_request (email password : string) (nextptr : json)
  : http_request :=
  {| rq_method := "POST";
     rq_url := CloudClient.apiurl (cloudclient self) +:+ "/robots/CleanedAreas";
     rq_auth := Some (CloudClient.httpauth (cloudclient self));
     rq_json := Some (JObj {[ "Next" := nextptr;
                              "Previous" := JNull;
                              "Limit" := JInt 50;
                              "RobotID" := JStr (id self);
                              "Email" := JStr email;
                              "AccountPassword" := JStr password ]}) |}.

(** [getCleaningSessions(nextptr)].  [fuel] bounds the depth of the
    recursion; [OutOfFuel] stands for a call that is still recursing at
    that depth.  What CPython makes of it, a [RecursionError], is
    [getCleaningSessions_limited] below. *)
Fixpoint getCleaningSessions (fuel : nat) (nextptr : json) : M (list json) :=
  match fuel with
  | O => fun w => (OutOfFuel, w)
  | S fuel' =>
      do email <- lift (dict_get (CloudClient.credentials (cloudclient self)) "Email");
      do password <- lift (dict_get (CloudClient.credentials (cloudclient self))
                                    "AccountPassword");
      do r <- do_http env (CleanedAreas_request email password nextptr);
      if Z.eqb (status_code r) 204 then ret []
      else
        do js <- lift (response_json r);
        do items <- lift (val raw <- Py.getitem js "Items";
                          val xs <- Py.iter raw;
                          sessions_of_items xs);
        do next <- lift (Py.getitem js "Next");
        if Py.is_not_None next then
          do next <- lift (Py.getitem js "Next");
          do more <- getCleaningSessions fuel' next;
          ret (items ++ more)
        else
          ret items
  end.


End Methods.

End CloudRobot.

(* ================================================================== *)
(** ** CloudMap *)
(* ================================================================== *)

(** [list(map(f, xs))] for a fallible [f]. *)
Fixpoint map_outcome {A B} (f : A -> outcome B) (xs : list A) : outcome (list B) :=
  match xs with
  | [] => Ok []
  | x :: xs' =>
      val y <- f x;
      val ys <- map_outcome f xs';
      Ok (y :: ys)
  end.

Module CloudMap.

Record t : Type := Make {
  cloudclient : CloudClient.t;
  robot : CloudRobot.t;
  id : json;
  interactiveid : json;
  name : json;
  zones : list CloudZone.t;
  info : json;
  image : json
}.

(** [CloudMap.__init__(cloudrobot, js)] *)
Definition init (cloudrobot : CloudRobot.t) (js : json) : outcome t :=
  val id <- Py.getitem js "Id";
  val interactiveid <- Py.getitem js "InteractiveId";
  val name <- Py.getitem js "Name";
  val raw <- Py.getitem js "Zones";
  val xs <- Py.iter raw;
  val zones <- map_outcome CloudZone.init xs;
  Ok {| cloudclient := CloudRobot.cloudclient cloudrobot;
        robot := cloudrobot;
        id := id;
        interactiveid := interactiveid;
        name := name;
        zones := zones;
        info := JNull;
        image := JNull |}.

Section Methods.

Variable env : Env.
Variable self : t.

Definition getImage2 : M json :=
  do url <- lift (val u <- Py.str_add (CloudClient.apiurl (cloudclient self)
                                       +:+ "/robots/" +:+ CloudRobot.id (robot self)
                                       +:+ "/interactivemaps/") (id self);
                  Py.str_add (u +:+ "/") (interactiveid self));
  do r <- do_http env {| rq_method := "GET";
                         rq_url := url;
                         rq_auth := Some (CloudClient.httpauth (cloudclient self));
                         rq_json := None |};
  do js <- lift (response_json r);
  ret js.

Definition getImage : M json :=
  do url <- lift (Py.str_add (CloudClient.apiurl (cloudclient self)
                              +:+ "/robots/" +:+ CloudRobot.id (robot self)
                              +:+ "/interactivemaps/") (id self));
  do r <- do_http env {| rq_method := "GET";
                         rq_url := url;
                         rq_auth := Some (CloudClient.httpauth (cloudclient self));
                         rq_json := None |};
  do js <- lift (response_json r);
  ret js.

End Methods.

End CloudMap.

(** [CloudRobot.getMaps]; it follows [CloudMap], whose constructor it calls. *)
Definition getMaps (env : Env) (self : CloudRobot.t) : M (list CloudMap.t) :=
  do r <- do_http env {|
    rq_method := "GET";
    rq_url := CloudClient.apiurl (CloudRobot.cloudclient self)
              +:+ "/robots/" +:+ CloudRobot.id self +:+ "/interactivemaps";
    rq_auth := Some (CloudClient.httpauth (CloudRobot.cloudclient self));
    rq_json := None |};
  lift (val js <- response_json r;
        val xs <- Py.iter js;
        map_outcome (CloudMap.init self) xs).

(* ================================================================== *)
(** ** Observations on traces *)
(* ================================================================== *)

Definition is_http (e : event) : bool :=
  match e with EvHttp _ _ => true | EvWs _ _ => false end.

Definition is_ws (e : event) : bool :=
  match e with EvWs _ _ => true | EvHttp _ _ => false end.

(** Number of HTTP requests issued so far. *)
Definition http_count (t : list event) : nat := length (List.filter is_http t).

(** Number of websocket calls issued so far. *)
Definition ws_count (t : list event) : nat := length (List.filter is_ws t).

(** The snapshot request of [_getinfo_inner]. *)
Definition is_AppUpdate (self : CloudRobot.t) (rq : http_request) : Prop :=
  rq_method rq = "POST" /\
  rq_url rq = CloudClient.apiurl (CloudRobot.cloudclient self) +:+ "/robots/AppUpdate".

(** A client as [CloudClient.__init__] builds it holds both credentials. *)
Definition has_credentials (c : CloudClient.t) : Prop :=
  is_Some (CloudClient.credentials c !! "Email") /\
  is_Some (CloudClient.credentials c !! "AccountPassword").

(** The cache is invalidated in [w]: it is marked dirty, and the next
    snapshot read issues one request, the snapshot request. *)
Definition invalidated (env : Env) (self : CloudRobot.t) (w : world) : Prop :=
  cache_dirty (cache w) = true /\
  exists rq rs,
    trace (snd (CloudRobot._getinfo env self w)) = trace w ++ [EvHttp rq rs] /\
    is_AppUpdate self rq.

(** Some websocket call was made between two traces. *)
Definition sent_command (before after : list event) : Prop :=
  ws_count before <> ws_count after.

(* ================================================================== *)
(** ** History pages as the specification describes them *)
(* ================================================================== *)

(** The cleaning-session sub-object of a history entry. *)
Record cleaning_session : Type := MkCleaningSession {
  MapImageUrl : option string;
  PersistentMapId : json;
  Completion : json;
  RobotUserError : json;
  RobotInternalError : json
}.

(** One entry of a page's [Items]; [CleaningSession] is [None] for a
    placeholder entry, whose sub-object is null. *)
Record history_item : Type := MkHistoryItem {
  TimeStamp : json;
  CleanedArea : json;
  CleaningSession : option cleaning_session
}.

(** The entry as the backend sends it. *)
Definition item_json (x : history_item) : json :=
  JObj {[ "TimeStamp" := TimeStamp x;
          "CleanedArea" := CleanedArea x;
          "CleaningSession" :=
            match CleaningSession x with
            | None => JNull
            | Some cs =>
                JObj {[ "MapImageUrl" := match MapImageUrl cs with
                                         | Some u => JStr u
                                         | None => JNull
                                         end;
                        "PersistentMapId" := PersistentMapId cs;
                        "Completion" := Completion cs;
                        "RobotUserError" := RobotUserError cs;
                        "RobotInternalError" := RobotInternalError cs ]}
            end ]}.

(** The session the history reports for an entry; none for a placeholder. *)
Definition item_session (x : history_item) : option json :=
  match CleaningSession x with
  | None => None
  | Some cs =>
      Some (JObj {[ "timestamp" := TimeStamp x;
                    "cleaned_area" := CleanedArea x;
                    "image" := match MapImageUrl cs with
                               | Some u => if String.eqb u "" then JNull
                                           else JStr (image_url_prefix +:+ u)
                               | None => JNull
                               end;
                    "map" := PersistentMapId cs;
                    "status" := Completion cs;
                    "usererror" := RobotUserError cs;
                    "internalerror" := RobotInternalError cs ]})
  end.

(** The sessions of one page, in order, placeholders dropped. *)
Definition page_sessions (page : list history_item) : list json :=
  omap item_session page.

(** How a chain of pages ends: with a page whose [Next] is null, or with a
    no-content answer to the request that follows the last page. *)
Inductive chain_end : Type := NullNext | NoContent.

(** The backend serves the chain [pages], starting with the answer to the
    request for cursor [nextptr] after trace [t]: every page answers the
    request made with the cursor of the page before it, and carries a
    non-null [Next] unless the chain ends there with a null one. *)
Fixpoint serves (env : Env) (self : CloudRobot.t) (email password : string)
    (t : list event) (nextptr : json) (pages : list (list history_item))
    (last : chain_end) : Prop :=
  let rq := CloudRobot.CleanedAreas_request self email password nextptr in
  match pages with
  | [] =>
      last = NoContent /\
      exists r, http_oracle env t rq = Answer r /\ status_code r = 204
  | page :: rest =>
      exists r m next,
        http_oracle env t rq = Answer r /\
        status_code r <> 204 /\
        content r = Some (JObj m) /\
        m !! "Items" = Some (JArr (item_json <$> page)) /\
        m !! "Next" = Some next /\
        ((rest = [] /\ last = NullNext /\ next = JNull) \/
         (next <> JNull /\
          serves env self email password (t ++ [EvHttp rq (Answer r)]) next rest last))
  end.

(** Requests a chain takes. *)
Definition chain_requests (pages : list (list history_item)) (last : chain_end) : nat :=
  match last with
  | NullNext => length pages
  | NoContent => S (length pages)
  end.

(** The cursor an answer tells the client to follow, if any: the non-null
    [Next] of a JSON object that did not come with the no-content status. *)
Definition next_of_answer (rs : reply http_response) : option json :=
  match rs with
  | Answer r =>
      if Z.eqb (status_code r) 204 then None
      else match content r with
           | Some (JObj m) =>
               match m !! "Next" with
               | Some c => if Py.is_not_None c then Some c else None
               | None => None
               end
           | _ => None
           end
  | Failure _ => None
  end.


(** The listing request of [getMaps]. *)
Definition Maps_request (self : CloudRobot.t) : http_request :=
  {| rq_method := "GET";
     rq_url := CloudClient.apiurl (CloudRobot.cloudclient self)
               +:+ "/robots/" +:+ CloudRobot.id self +:+ "/interactivemaps";
     rq_auth := Some (CloudClient.httpauth (CloudRobot.cloudclient self));
     rq_json := None |}.

(** The request [getImage] makes for a map whose id is the string [mid]. *)
Definition Image_request (map : CloudMap.t) (mid : string) : http_request :=
  {| rq_method := "GET";
     rq_url := (CloudClient.apiurl (CloudMap.cloudclient map)
                +:+ "/robots/" +:+ CloudRobot.id (CloudMap.robot map)
                +:+ "/interactivemaps/") +:+ mid;
     rq_auth := Some (CloudClient.httpauth (CloudMap.cloudclient map));
     rq_json := None |}.

(** Zone [zone] holds what the element [z] of a listing's [Zones] says. *)
Definition zone_from_listing (z : json) (zone : CloudZone.t) : Prop :=
  exists m : gmap string json,
    z = JObj m /\
    m !! "Id" = Some (CloudZone.id zone) /\
    m !! "Name" = Some (CloudZone.name zone) /\
    m !! "ZoneType" = Some (CloudZone.type zone) /\
    m !! "RoomCategory" = Some (CloudZone.roomcategory zone).

(** The zones of a map are those its listing entry [x] carries: one zone
    for each element of the entry's [Zones], in order, with the fields of
    that element. *)
Definition zones_from_listing (x : json) (map : CloudMap.t) : Prop :=
  exists (m : gmap string json) raw zs,
    x = JObj m /\
    m !! "Zones" = Some raw /\
    Py.iter raw = Ok zs /\
    Forall2 zone_from_listing zs (CloudMap.zones map).

(* ================================================================== *)
(** ** Concrete robots and backends *)
(* ================================================================== *)

Module Demo.

(** The integer codes the examples use. *)
Definition codes (m : PowerMode.t) : Z :=
  match m with
  | PowerMode.LOW => 1
  | PowerMode.MEDIUM => 2
  | PowerMode.HIGH => 3
  end.

Definition client : CloudClient.t :=
  {| CloudClient.apiurl := "https://mobile.rvccloud.electrolux.com/api/v1";
     CloudClient.credentials := {[ "AccountPassword" := "c2VjcmV0"; "Email" := "user@example.org" ]};
     CloudClient.httpauth := ("user@example.org", "c2VjcmV0") |}.

Definition robot : CloudRobot.t :=
  {| CloudRobot.cloudclient := client; CloudRobot.id := "900277283814002291100106" |}.

(** A handle that has not talked to the backend yet. *)
Definition fresh : world := {| cache := CachedData.init; trace := [] |}.

(** A backend that answers every HTTP request with [body] and accepts every
    websocket call. *)
Definition steady (body : json) : Env :=
  {| http_oracle := fun _ _ => Answer {| status_code := 200; content := Some body |};
     ws_oracle := fun _ _ => Answer "" |}.

(** The same backend with a websocket endpoint that refuses connections. *)
Definition ws_down (body : json) : Env :=
  {| http_oracle := fun _ _ => Answer {| status_code := 200; content := Some body |};
     ws_oracle := fun _ op =>
       match op with
       | WsClose => Answer ""
       | _ => Failure (TransportError "connection refused")
       end |}.

Definition eco_fields : gmap string json :=
  {[ "RobotName" := JStr "Hoover"; "EcoMode" := JBool true ]}.

Definition tri_fields : gmap string json :=
  {[ "RobotName" := JStr "Hoover"; "PowerMode" := JInt 3; "EcoMode" := JBool true ]}.

Definition bare_fields : gmap string json :=
  {[ "RobotName" := JStr "Hoover" ]}.

(** The cursor a history request carries. *)
Definition request_cursor (rq : http_request) : option string :=
  match rq_json rq with
  | Some (JObj m) => match m !! "Next" with Some (JStr c) => Some c | _ => None end
  | _ => None
  end.

(** A history backend: a book of pages by cursor, each with the cursor of
    the page that follows; an unknown cursor gets the no-content answer. *)
Definition library (book : list (option string * (list history_item * option string)))
  : Env :=
  {| http_oracle := fun _ rq =>
       match List.find (fun p => bool_decide (p.1 = request_cursor rq)) book with
       | Some (_, (items, next)) =>
           Answer {| status_code := 200;
                     content := Some (JObj {[ "Items" := JArr (item_json <$> items);
                                              "Next" := match next with
                                                        | Some c => JStr c
                                                        | None => JNull
                                                        end ]}) |}
       | None => Answer {| status_code := 204; content := None |}
       end;
     ws_oracle := fun _ _ => Answer "" |}.

Definition entry (n : nat) : history_item :=
  {| TimeStamp := JInt (Z.of_nat n);
     CleanedArea := JInt 12;
     CleaningSession :=
       Some {| MapImageUrl := Some "f3a9.png";
               PersistentMapId := JStr "map-1";
               Completion := JStr "endedNotFindingCharger";
               RobotUserError := JInt 0;
               RobotInternalError := JInt 0 |} |}.

Definition placeholder (n : nat) : history_item :=
  {| TimeStamp := JInt (Z.of_nat n); CleanedArea := JInt 0; CleaningSession := None |}.

(** Pages of 50, 50 and 12 entries; the eighth entry of the second page is
    a placeholder. *)
Definition page1 : list history_item := entry <$> seq 0 50.
Definition page2 : list history_item :=
  (entry <$> seq 50 7) ++ [placeholder 57] ++ (entry <$> seq 58 42).
Definition page3 : list history_item := entry <$> seq 100 12.

Definition three_pages : Env :=
  library [ (None, (page1, Some "A")); (Some "A", (page2, Some "B"));
            (Some "B", (page3, None)) ].

(** One page, then no content for its cursor. *)
Definition page_then_nothing : Env := library [ (None, (page3, Some "A")) ].

(** A backend whose second page names itself as the next page. *)
Definition cyclic : Env :=
  library [ (None, (page3, Some "A")); (Some "A", ([placeholder 0], Some "A")) ].

(** One map with two zones, as the listing gives it, and its image payload. *)
Definition map_entry : json :=
  JObj {[ "Id" := JStr "map-1";
          "InteractiveId" := JStr "interactive-7";
          "Name" := JStr "Ground floor";
          "Zones" := JArr [ JObj {[ "Id" := JStr "z1"; "Name" := JStr "Kitchen";
                                    "ZoneType" := JInt 0; "RoomCategory" := JInt 3 ]};
                            JObj {[ "Id" := JStr "z2"; "Name" := JStr "Hall";
                                    "ZoneType" := JInt 1; "RoomCategory" := JInt 5 ]} ] ]}.

Definition image_payload : json :=
  JObj {[ "Id" := JStr "map-1";
          "PngImage" := JStr "iVBORw0KGgoAAAANSUhEUgAAAAEAAAABCAYAAAAfFcSJAAAADUlEQVR42mNk";
          "Timestamp" := JInt 1600000000 ]}.

(** A backend that answers the listing with [map_entry] and every other
    request with [image_payload]. *)
Definition atlas : Env :=
  {| http_oracle := fun _ rq =>
       if String.eqb (rq_url rq) (rq_url (Maps_request robot))
       then Answer {| status_code := 200; content := Some (JArr [map_entry]) |}
       else Answer {| status_code := 200; content := Some image_payload |};
     ws_oracle := fun _ _ => Answer "" |}.

(** The code points of a password with characters on one, and on two, code
    units. *)
Definition unicode_password : list Z :=
  [0x70; 0xe4; 0x73; 0x73; 0x77; 0xf6; 0x72; 0x64; 0x20ac; 0x1f600].

End Demo.

(* ================================================================== *)
(** ** The other methods of the robot and of the map's callers *)
(* ================================================================== *)

(** The websocket operations of a stretch of trace, in order. *)
Definition ws_ops (t : list event) : list ws_op :=
  omap (fun e => match e with EvWs op _ => Some op | EvHttp _ _ => None end) t.

(** Every call of a stretch of trace was answered, none failed. *)
Definition all_answered (t : list event) : bool :=
  forallb (fun e => match e with
                    | EvWs _ (Answer _) | EvHttp _ (Answer _) => true
                    | _ => false
                    end) t.

(** The answers a stretch of trace records are the backend's: every call
    got what the oracle gives after the calls before it. *)
Fixpoint answered_by (env : Env) (t : list event) (evs : list event) : Prop :=
  match evs with
  | [] => True
  | e :: rest =>
      match e with
      | EvWs op rs => rs = ws_oracle env t op
      | EvHttp rq rs => rs = http_oracle env t rq
      end /\
      answered_by env (t ++ [e]) rest
  end.

(** The exception of the last call of a stretch of trace that failed. *)
Definition last_failure (t : list event) : option exn :=
  last (omap (fun e => match e with
                       | EvWs _ (Failure x) | EvHttp _ (Failure x) => Some x
                       | _ => None
                       end) t).

(** [x == v] for a decoded JSON value and an integer: [True] and [False]
    equal 1 and 0, and no str, list, dict or [None] equals an integer. *)
Definition equals_int (x : json) (v : Z) : Prop :=
  match x with
  | JInt z => z = v
  | JBool b => Z.b2z b = v
  | _ => False
  end.

(** The decoded JSON values that count as false in a condition, [None]
    apart: [False], zero, and the empty str, list and dict. *)
Definition falsy : list json := [JBool false; JInt 0; JStr ""; JArr []; JObj ∅].

(** The request frame of a command with body [body]. *)
Definition AppUpdate_frame (body : json) : json :=
  JObj {[ "Type" := JInt 1; "Command" := JStr "AppUpdate"; "Body" := body ]}.

(** The requests a stretch of trace holds follow the cursors: the first is
    the history request for [c], and each later one is the history request
    for the non-null [Next] of the answer before it. *)
Fixpoint cursor_chain (self : CloudRobot.t) (email password : string)
    (c : json) (t : list event) : Prop :=
  match t with
  | [] => True
  | e :: t' =>
      exists rs, e = EvHttp (CloudRobot.CleanedAreas_request self email password c) rs /\
        match t' with
        | [] => True
        | _ => exists c', next_of_answer rs = Some c' /\
                          cursor_chain self email password c' t'
        end
  end.

(** The keys of a session of the history. *)
Definition session_keys : gset string :=
  {[ "timestamp"; "cleaned_area"; "image"; "map"; "status"; "usererror"; "internalerror" ]}.

(** A session as [getCleaningSessions] hands it out: a dict with the seven
    keys whose image is [None] or an address under the image prefix. *)
Definition session_shape (d : json) : Prop :=
  exists m : gmap string json,
    d = JObj m /\ dom m = session_keys /\
    (m !! "image" = Some JNull \/
     exists u, u <> "" /\ m !! "image" = Some (JStr (image_url_prefix +:+ u))).

(** The test of the [filter] in [getCleaningSessions], on an entry that has
    the key. *)
Definition has_session (x : json) : bool :=
  match Py.getitem x "CleaningSession" with
  | Ok cs => Py.is_not_None cs
  | _ => false
  end.

(** A Unicode scalar value: a code point that is no surrogate. *)
Definition scalar (cp : Z) : bool :=
  (0 <=? cp) && (cp <=? 0x10FFFF) && negb ((0xD800 <=? cp) && (cp <? 0xE000)).

(* ================================================================== *)
(** ** The command line ([__main__.py]) *)
(* ================================================================== *)

Module Main.

(** [s] up to the first [sep], and what follows that [sep], if there is one. *)
Fixpoint partition (sep : Z) (s : list Z) : list Z * option (list Z) :=
  match s with
  | [] => ([], None)
  | c :: s' =>
      if Z.eqb c sep then ([], Some s')
      else let '(head, tail) := partition sep s' in (c :: head, tail)
  end.

(** [s.split(sep, maxsplit)] for a separator of one character. *)
Fixpoint split (sep : Z) (maxsplit : nat) (s : list Z) : list (list Z) :=
  match maxsplit with
  | O => [s]
  | S n =>
      match partition sep s with
      | (head, None) => [head]
      | (head, Some tail) => head :: split sep n tail
      end
  end.

Definition colon : Z := 58.

(** The [--credentials] argument: [parts = s.split(":", 2)], then
    [parts[0]] is the email and [parts[1]] the password.  [None] stands for
    the [IndexError] of [parts[1]]. *)
Definition parse_credentials (s : list Z) : option (list Z * list Z) :=
  let parts := split colon 2 s in
  match parts !! 0%nat, parts !! 1%nat with
  | Some email, Some password => Some (email, password)
  | _, _ => None
  end.

(** [d[k] = v] on a decoded JSON value. *)
Definition setitem (d : json) (k : string) (v : json) : outcome json :=
  match d with
  | JObj m => Ok (JObj (<[k := v]> m))
  | _ => Raise TypeError
  end.

Section History.

(** [imageascii.draw2shade] is not among the sources: it is a parameter,
    any function that gives a value or raises. *)
Variable draw2shade : json -> reply json.

(** The body of the [try] for one session, with the counter [i]:
    the session and the counter after it. *)
Definition render_session (i : nat) (sess : json) : outcome (json * nat) :=
  if (i <? 10)%nat then
    val image <- Py.getitem sess "image";
    val drawn <- of_reply (draw2shade image);
    val text <- match drawn with
                | JStr s => Ok (JStr (s +:+ "_"))
                | _ => Raise TypeError
                end;
    val sess' <- setitem sess "image" text;
    Ok (sess', S i)
  else
    val sess' <- setitem sess "image" (JStr "(not shown)");
    Ok (sess', i).

(** The loop of the [history] subcommand over the sessions: [OUTPUT] and
    the counter at the end.  [table] is [args.output == "table"]; the bare
    [except: pass] leaves session and counter as they were. *)
Fixpoint history_loop (table : bool) (i : nat) (sessions : list json)
  : list json * nat :=
  match sessions with
  | [] => ([], i)
  | sess :: rest =>
      let '(sess', i') :=
        if table then
          match render_session i sess with
          | Ok done => done
          | _ => (sess, i)
          end
        else (sess, i) in
      let '(output, n) := history_loop table i' rest in
      (sess' :: output, n)
  end.

Definition history_output (table : bool) (sessions : list json) : list json :=
  fst (history_loop table 0 sessions).

End History.

Section Maps.

Variable env : Env.

(** [imageascii.image_json_2_ascii] is not among the sources: it is a
    parameter, any function that gives a value or raises. *)
Variable image_json_2_ascii : json -> reply json.

(** One turn of the loop of the [maps] subcommand: the row for map [m]. *)
Definition map_row (table : bool) (m : CloudMap.t) : M json :=
  do js <- CloudMap.getImage env m;
  do image <-
    (if Py.truthy js then
       if table then lift (of_reply (image_json_2_ascii js))
       else lift (Py.getitem js "PngImage")
     else ret JNull);
  ret (JObj {[ "image" := image;
               "id" := CloudMap.id m;
               "name" := CloudMap.name m;
               "zones" := JArr (CloudZone.name <$> CloudMap.zones m) ]}).

Fixpoint map_rows (table : bool) (maps : list CloudMap.t) : M (list json) :=
  match maps with
  | [] => ret []
  | m :: rest =>
      do row <- map_row table m;
      do rows <- map_rows table rest;
      ret (row :: rows)
  end.

(** The [maps] subcommand on robot [rc]: [OUTPUT]. *)
Definition maps_command (table : bool) (rc : CloudRobot.t) : M (list json) :=
  do maps <- getMaps env rc;
  map_rows table maps.

End Maps.

End Main.

(** The backend serves the pages [pages], every one with a non-null [Next],
    starting with the answer to the request for cursor [c] after trace [t];
    [final] then holds of the trace and the cursor after the last page. *)
Fixpoint serves_then (env : Env) (self : CloudRobot.t) (email password : string)
    (t : list event) (c : json) (pages : list (list history_item))
    (final : list event -> json -> Prop) : Prop :=
  let rq := CloudRobot.CleanedAreas_request self email password c in
  match pages with
  | [] => final t c
  | page :: rest =>
      exists r m next,
        http_oracle env t rq = Answer r /\
        status_code r <> 204 /\
        content r = Some (JObj m) /\
        m !! "Items" = Some (JArr (item_json <$> page)) /\
        m !! "Next" = Some next /\
        next <> JNull /\
        serves_then env self email password (t ++ [EvHttp rq (Answer r)]) next rest final
  end.

Module More.

(** A history backend that serves one page and then times out. *)
Definition flaky : Env :=
  {| http_oracle := fun _ rq =>
       match Demo.request_cursor rq with
       | None =>
           Answer {| status_code := 200;
                     content := Some (JObj {[ "Items" := JArr (item_json <$> Demo.page3);
                                              "Next" := JStr "A" ]}) |}
       | Some _ => Failure (TransportError "timed out")
       end;
     ws_oracle := fun _ _ => Answer "" |}.

(** A listing entry that has no [Zones]. *)
Definition attic : gmap string json :=
  {[ "Id" := JStr "map-2"; "InteractiveId" := JStr "i2"; "Name" := JStr "Attic" ]}.

End More.

(** Unfold the monadic plumbing down to the oracle calls. *)
Ltac run_monad :=
  repeat (progress (
    unfold bind, ret, lift, raise, try_finally, ws_call, do_http, get_cache, set_cache,
      CloudRobot._mark_changed, CachedData._mark_changed;
    cbn beta iota zeta delta [trace cache fst snd of_reply])).

(* ================================================================== *)
(** * Properties *)
(* ================================================================== *)

Lemma bind_eq {A B} (c : M A) (k : A -> M B) (w : world) :
  bind c k w =
    match c w with
    | (Ok a, w') => k a w'
    | (Raise e, w') => (Raise e, w')
    | (OutOfFuel, w') => (OutOfFuel, w')
    end.
Proof. reflexivity. Qed.

Lemma http_count_app t1 t2 : http_count (t1 ++ t2) = (http_count t1 + http_count t2)%nat.
Proof. unfold http_count. rewrite List.filter_app, length_app. reflexivity. Qed.

Lemma ws_count_app t1 t2 : ws_count (t1 ++ t2) = (ws_count t1 + ws_count t2)%nat.
Proof. unfold ws_count. rewrite List.filter_app, length_app. reflexivity. Qed.

Lemma init_has_credentials bo email pw c :
  CloudClient.init bo email pw = Ok c -> has_credentials c.
Proof.
  unfold CloudClient.init. destruct (CloudClient.chksum bo pw) as [d| |]; simpl; try discriminate.
  intros [= <-]. split; simpl; [rewrite lookup_insert_ne by done|]; simplify_map_eq; eauto.
Qed.

Section CacheFacts.

Variable env : Env.
Variable self : CloudRobot.t.

Abbreviation _getinfo := (CloudRobot._getinfo env self).
Abbreviation _getinfo_inner := (CloudRobot._getinfo_inner env self).

(** A present, clean snapshot is returned without touching the world. *)
Lemma getinfo_hit w s :
  cache w = {| cache_data := Some s; cache_dirty := false |} ->
  _getinfo w = (Ok s, w).
Proof.
  intros Hc. unfold CloudRobot._getinfo, CachedData._getinfo, bind, get_cache.
  rewrite Hc. reflexivity.
Qed.

(** Otherwise the read is the fetch, followed by the store on success. *)
Lemma getinfo_miss w :
  (cache_data (cache w) = None \/ cache_dirty (cache w) = true) ->
  _getinfo w =
    match _getinfo_inner w with
    | (Ok s, w') =>
        (Ok s, {| cache := {| cache_data := Some s; cache_dirty := false |};
                  trace := trace w' |})
    | (Raise e, w') => (Raise e, w')
    | (OutOfFuel, w') => (OutOfFuel, w')
    end.
Proof.
  intros Hm. unfold CloudRobot._getinfo, CachedData._getinfo, bind, get_cache.
  destruct (cache w) as [[s|] [|]]; simpl in *;
    try (destruct Hm; discriminate);
    destruct (_getinfo_inner w) as [[s'| |] w']; reflexivity.
Qed.

(** The fetch leaves the cache alone and issues at most one request, an
    HTTP one. *)
Lemma getinfo_inner_effect w :
  let '(r, w') := _getinfo_inner w in
  cache w' = cache w /\
  (trace w' = trace w /\ (exists e, r = Raise e) \/
   exists rq rs, trace w' = trace w ++ [EvHttp rq rs] /\ is_AppUpdate self rq).
Proof.
  unfold CloudRobot._getinfo_inner, bind, lift, do_http.
  destruct (dict_get _ "Email") as [email| |] eqn:He; simpl; eauto.
  2:{ unfold dict_get in He. destruct (_ !! _); discriminate. }
  destruct (dict_get _ "AccountPassword") as [pw| |] eqn:Hp; simpl; eauto.
  2:{ unfold dict_get in Hp. destruct (_ !! _); discriminate. }
  match goal with |- context [http_oracle env ?t ?q] =>
    set (rq := q); destruct (http_oracle env t rq) as [rs|e] eqn:Ho end; simpl.
  - destruct (response_json rs) as [js| |]; simpl; split; auto;
      right; exists rq, (Answer rs); (split; [reflexivity | split; reflexivity]).
  - split; auto. right. exists rq, (Failure e). split; [reflexivity | split; reflexivity].
Qed.

(** With a well-formed client the fetch always reaches the backend. *)
Lemma getinfo_inner_fetches w :
  has_credentials (CloudRobot.cloudclient self) ->
  exists rq rs,
    trace (snd (_getinfo_inner w)) = trace w ++ [EvHttp rq rs] /\ is_AppUpdate self rq.
Proof.
  intros [[email He] [pw Hp]].
  unfold CloudRobot._getinfo_inner, bind, lift, do_http, dict_get.
  rewrite He, Hp. simpl.
  match goal with |- context [http_oracle env ?t ?q] =>
    set (rq := q); destruct (http_oracle env t rq) as [rs|e] eqn:Ho end; simpl.
  - exists rq, (Answer rs). destruct (response_json rs); simpl; repeat split.
  - exists rq, (Failure e). repeat split.
Qed.

(** Whatever a read returns stays cached, clean. *)
Lemma getinfo_ok_cached w s w1 :
  _getinfo w = (Ok s, w1) ->
  cache w1 = {| cache_data := Some s; cache_dirty := false |}.
Proof.
  destruct (cache w) as [[s0|] [|]] eqn:Hc.
  1,3,4: rewrite getinfo_miss by (rewrite Hc; simpl; auto);
         destruct (_getinfo_inner w) as [[s'| |] w']; intros [= <- <-]; reflexivity.
  rewrite (getinfo_hit w s0 Hc). intros [= <- <-]. exact Hc.
Qed.

(** A read adds at most one event, an HTTP request, and no websocket call. *)
Lemma getinfo_trace w :
  let w1 := snd (_getinfo w) in
  trace w1 = trace w \/ exists rq rs, trace w1 = trace w ++ [EvHttp rq rs].
Proof.
  destruct (cache w) as [[s0|] [|]] eqn:Hc.
  1,3,4: rewrite getinfo_miss by (rewrite Hc; simpl; auto);
         pose proof (getinfo_inner_effect w) as H;
         destruct (_getinfo_inner w) as [[s'| |] w']; simpl;
         destruct H as [_ [[H _]|(rq & rs & H & _)]]; eauto.
  rewrite (getinfo_hit w s0 Hc). simpl. auto.
Qed.

Lemma getinfo_ws_count w :
  ws_count (trace (snd (_getinfo w))) = ws_count (trace w).
Proof.
  destruct (getinfo_trace w) as [->|(rq & rs & ->)]; [reflexivity|].
  rewrite ws_count_app. unfold ws_count at 2. simpl. lia.
Qed.

(** A read of a dirty cache goes to the backend. *)
Lemma getinfo_dirty_fetches w :
  has_credentials (CloudRobot.cloudclient self) ->
  cache_dirty (cache w) = true ->
  exists rq rs,
    trace (snd (_getinfo w)) = trace w ++ [EvHttp rq rs] /\ is_AppUpdate self rq.
Proof.
  intros Hwf Hd. rewrite getinfo_miss by auto.
  destruct (getinfo_inner_fetches w Hwf) as (rq & rs & Ht & Hrq).
  exists rq, rs. split; [|exact Hrq].
  destruct (_getinfo_inner w) as [[s| |] w']; simpl in *; exact Ht.
Qed.

End CacheFacts.

(* ------------------------------------------------------------------ *)
(** ** Reading the snapshot twice *)
(* ------------------------------------------------------------------ *)

(** C6.  Two snapshot reads in a row, with no command and no invalidation
    in between, issue at most one backend request: when both return, the
    second is served from the cache, leaves the handle and the trace as the
    first left them, and returns the same snapshot. *)
Theorem C6_snapshot_read_twice_fetches_once (env : Env) (self : CloudRobot.t) (w : world) :
  let '(r, w2) := (do a <- CloudRobot._getinfo env self;
                   do b <- CloudRobot._getinfo env self;
                   ret (a, b)) w in
  (http_count (trace w2) <= http_count (trace w) + 1)%nat /\
  (ws_count (trace w2) = ws_count (trace w)) /\
  forall a b, r = Ok (a, b) ->
    a = b /\
    CloudRobot._getinfo env self w = (Ok a, w2) /\
    CloudRobot._getinfo env self w2 = (Ok a, w2).
Proof.
  unfold bind at 1.
  pose proof (getinfo_trace env self w) as Ht.
  pose proof (getinfo_ws_count env self w) as Hws.
  destruct (CloudRobot._getinfo env self w) as [[a| |] w1] eqn:H1; simpl in Ht, Hws.
  - pose proof (getinfo_ok_cached env self w a w1 H1) as Hc.
    unfold bind, ret. rewrite (getinfo_hit env self w1 a Hc).
    split; [|split; [exact Hws|]].
    + destruct Ht as [->|(rq & rs & ->)]; [lia|].
      rewrite http_count_app. unfold http_count at 2. simpl. lia.
    + intros a' b' [= <- <-]. repeat split. exact (getinfo_hit env self w1 a Hc).
  - split; [|split; [exact Hws | discriminate]].
    destruct Ht as [->|(rq & rs & ->)]; [lia|].
    rewrite http_count_app. unfold http_count at 2. simpl. lia.
  - split; [|split; [exact Hws | discriminate]].
    destruct Ht as [->|(rq & rs & ->)]; [lia|].
    rewrite http_count_app. unfold http_count at 2. simpl. lia.
Qed.

(** On a fresh handle the first read is the one fetch. *)
Example snapshot_read_twice_fresh :
  let env := Demo.steady (JObj Demo.eco_fields) in
  let '(r, w2) := (do a <- CloudRobot._getinfo env Demo.robot;
                   do b <- CloudRobot._getinfo env Demo.robot;
                   ret (a, b)) Demo.fresh in
  r = Ok (JObj Demo.eco_fields, JObj Demo.eco_fields) /\ http_count (trace w2) = 1%nat.
Proof. split; reflexivity. Qed.

(* ------------------------------------------------------------------ *)
(** ** Commands and the cache *)
(* ------------------------------------------------------------------ *)

Section CommandFacts.

Variable env : Env.
Variable self : CloudRobot.t.

(** Whatever the websocket answers, [_sendCommand] leaves the cache dirty
    (the [finally] block), keeps the stored snapshot, and adds only
    websocket calls to the trace, at least the connection attempt. *)
Lemma sendCommand_effect body w :
  let '(r, w') := CloudRobot._sendCommand env self body w in
  cache w' = {| cache_data := cache_data (cache w); cache_dirty := true |} /\
  (r = Ok true \/ exists e, r = Raise e) /\
  exists evs, trace w' = trace w ++ evs /\ http_count evs = 0%nat /\ (0 < ws_count evs)%nat.
Proof.
  unfold CloudRobot._sendCommand. run_monad.
  repeat match goal with
  | |- context [ws_oracle env ?t ?op] =>
      let a := fresh "a" in destruct (ws_oracle env t op) as [a|a]; run_monad
  end;
  (split; [reflexivity|]); (split; [eauto|]);
  rewrite <- ?app_assoc; eexists; (split; [reflexivity|]);
  (split; [reflexivity | cbn; lia]).
Qed.

Lemma sendCommand_invalidates body w :
  has_credentials (CloudRobot.cloudclient self) ->
  invalidated env self (snd (CloudRobot._sendCommand env self body w)).
Proof.
  intros Hwf. pose proof (sendCommand_effect body w) as H.
  destruct (CloudRobot._sendCommand env self body w) as [r w']. cbn [snd].
  destruct H as (Hc & _ & _).
  assert (Hd : cache_dirty (cache w') = true) by (rewrite Hc; reflexivity).
  split; [exact Hd|]. exact (getinfo_dirty_fetches env self w' Hwf Hd).
Qed.

Lemma sendCommand_ws_count body w :
  (ws_count (trace w) < ws_count (trace (snd (CloudRobot._sendCommand env self body w))))%nat.
Proof.
  pose proof (sendCommand_effect body w) as H.
  destruct (CloudRobot._sendCommand env self body w) as [r w']. cbn [snd].
  destruct H as (_ & _ & evs & -> & _ & Hpos). rewrite ws_count_app. lia.
Qed.

End CommandFacts.

Section PowerModeFacts.

Variable env : Env.
Variable value : PowerMode.t -> Z.
Variable self : CloudRobot.t.

(** The two representation probes on a snapshot that is a JSON object. *)
Lemma field_or_None_obj (m : gmap string json) k :
  CloudRobot.field_or_None (JObj m) k = Ok (default JNull (m !! k)).
Proof. unfold CloudRobot.field_or_None. simpl. destruct (m !! k); reflexivity. Qed.

(** [getpowermode] is the read followed by the pure resolution below. *)
Lemma getpowermode_after_read w (m : gmap string json) w1 :
  CloudRobot._getinfo env self w = (Ok (JObj m), w1) ->
  CloudRobot.getpowermode env value self w =
    (let powermode := default JNull (m !! "PowerMode") in
     let isecomode := default JNull (m !! "EcoMode") in
     if Py.is_not_None powermode then PowerMode.call value powermode
     else if Py.is_not_None isecomode then
       if Py.truthy isecomode then Ok PowerMode.MEDIUM else Ok PowerMode.HIGH
     else Ok PowerMode.MEDIUM, w1).
Proof.
  intros H. unfold CloudRobot.getpowermode. unfold bind at 1. rewrite H.
  rewrite !field_or_None_obj. run_monad.
  destruct (Py.is_not_None (default JNull (m !! "PowerMode"))); [reflexivity|].
  destruct (Py.is_not_None (default JNull (m !! "EcoMode"))); [|reflexivity].
  destruct (Py.truthy _); reflexivity.
Qed.

(** [setpowermode] is the read followed by the choice of a command. *)
Lemma setpowermode_after_read mode w (m : gmap string json) w1 :
  CloudRobot._getinfo env self w = (Ok (JObj m), w1) ->
  CloudRobot.setpowermode env value self mode w =
    (if Py.is_not_None (default JNull (m !! "PowerMode")) then
       exec CloudRobot._sendCommand env self (JObj {[ "PowerMode" := JInt (value mode) ]});
       ret tt
     else if Py.is_not_None (default JNull (m !! "EcoMode")) then
       if decide (mode = PowerMode.MEDIUM) then
         exec CloudRobot._sendCommand env self (JObj {[ "EcoMode" := JBool true ]});
         ret tt
       else if decide (mode = PowerMode.HIGH) then
         exec CloudRobot._sendCommand env self (JObj {[ "EcoMode" := JBool false ]});
         ret tt
       else raise (Exception ("Robot does not support " +:+ PowerMode.str mode))
     else raise (Exception "Robot does not support setting powermode")) w1.
Proof.
  intros H. unfold CloudRobot.setpowermode. unfold bind at 1. rewrite H.
  rewrite !field_or_None_obj. reflexivity.
Qed.

(** With distinct codes, looking a member's code up gives the member back. *)
Lemma of_value_value mode :
  (forall m', value m' = value mode -> m' = mode) ->
  PowerMode.of_value value (value mode) = Ok mode.
Proof.
  intros Hinj. unfold PowerMode.of_value, PowerMode.members. simpl.
  destruct (Z.eqb_spec (value PowerMode.LOW) (value mode)) as [E|NL];
    [rewrite (Hinj _ E); reflexivity|].
  destruct (Z.eqb_spec (value PowerMode.MEDIUM) (value mode)) as [E|NM];
    [rewrite (Hinj _ E); reflexivity|].
  destruct (Z.eqb_spec (value PowerMode.HIGH) (value mode)) as [E|N];
    [rewrite (Hinj _ E); reflexivity|].
  destruct mode; congruence.
Qed.

End PowerModeFacts.

Section SetPowerModeFacts.

Variable env : Env.
Variable value : PowerMode.t -> Z.
Variable self : CloudRobot.t.

(** [setpowermode] ends either where its snapshot read ended, or where the
    one command it sent ended. *)
Lemma setpowermode_cases mode w :
  let w1 := snd (CloudRobot._getinfo env self w) in
  snd (CloudRobot.setpowermode env value self mode w) = w1 \/
  exists body,
    snd (CloudRobot.setpowermode env value self mode w)
    = snd (CloudRobot._sendCommand env self body w1).
Proof.
  unfold CloudRobot.setpowermode. rewrite !bind_eq.
  destruct (CloudRobot._getinfo env self w) as [[i| |] w1]; cbn [snd]; auto.
  rewrite !bind_eq. unfold lift at 1 3.
  destruct (CloudRobot.field_or_None i "PowerMode") as [p| |]; cbn [snd]; auto.
  rewrite !bind_eq. unfold lift at 1 2.
  destruct (CloudRobot.field_or_None i "EcoMode") as [e| |]; cbn [snd]; auto.
  assert (Hsend : forall body,
    snd ((exec CloudRobot._sendCommand env self body; ret tt) w1)
    = snd (CloudRobot._sendCommand env self body w1)).
  { intros body. unfold bind, ret.
    destruct (CloudRobot._sendCommand env self body w1) as [[?| |] ?]; reflexivity. }
  destruct (Py.is_not_None p); [right; eexists; apply Hsend|].
  destruct (Py.is_not_None e); [|left; reflexivity].
  destruct (decide (mode = PowerMode.MEDIUM)); [right; eexists; apply Hsend|].
  destruct (decide (mode = PowerMode.HIGH)); [right; eexists; apply Hsend|].
  left; reflexivity.
Qed.

End SetPowerModeFacts.

(* ------------------------------------------------------------------ *)
(** ** Power modes, commands and the cache *)
(* ------------------------------------------------------------------ *)

(** C1.  Power-mode resolution on the snapshot the read returned (a JSON
    object with fields [m]): an integer [PowerMode] field is translated by
    the enum's lookup by value, whatever [EcoMode] says, and with distinct
    codes the code of a member gives that member; with no [PowerMode] field,
    a boolean [EcoMode] gives MEDIUM for true and HIGH for false; with
    neither field the result is MEDIUM. *)
Theorem C1_getpowermode_resolution (env : Env) (value : PowerMode.t -> Z)
    (self : CloudRobot.t) (w w1 : world) (m : gmap string json) :
  CloudRobot._getinfo env self w = (Ok (JObj m), w1) ->
  (forall v, m !! "PowerMode" = Some (JInt v) ->
     CloudRobot.getpowermode env value self w = (PowerMode.of_value value v, w1)) /\
  (forall mode, (forall m', value m' = value mode -> m' = mode) ->
     m !! "PowerMode" = Some (JInt (value mode)) ->
     CloudRobot.getpowermode env value self w = (Ok mode, w1)) /\
  (forall b, m !! "PowerMode" = None -> m !! "EcoMode" = Some (JBool b) ->
     CloudRobot.getpowermode env value self w
     = (Ok (if b then PowerMode.MEDIUM else PowerMode.HIGH), w1)) /\
  (m !! "PowerMode" = None -> m !! "EcoMode" = None ->
     CloudRobot.getpowermode env value self w = (Ok PowerMode.MEDIUM, w1)).
Proof.
  intros H. rewrite (getpowermode_after_read env value self w m w1 H).
  repeat split.
  - intros v ->. reflexivity.
  - intros mode Hinj ->. simpl. rewrite (of_value_value value mode Hinj). reflexivity.
  - intros b -> ->. destruct b; reflexivity.
  - intros -> ->. reflexivity.
Qed.

(** C1, at three snapshots fetched by a fresh handle: both fields (the
    integer wins), [EcoMode] alone, neither. *)
Lemma C1_getpowermode_resolution_witness :
  fst (CloudRobot.getpowermode (Demo.steady (JObj Demo.tri_fields)) Demo.codes
         Demo.robot Demo.fresh) = Ok PowerMode.HIGH /\
  fst (CloudRobot.getpowermode (Demo.steady (JObj Demo.eco_fields)) Demo.codes
         Demo.robot Demo.fresh) = Ok PowerMode.MEDIUM /\
  fst (CloudRobot.getpowermode (Demo.steady (JObj Demo.bare_fields)) Demo.codes
         Demo.robot Demo.fresh) = Ok PowerMode.MEDIUM.
Proof.
  split; [|split].
  - pose proof (C1_getpowermode_resolution (Demo.steady (JObj Demo.tri_fields)) Demo.codes
                  Demo.robot Demo.fresh _ Demo.tri_fields eq_refl) as (_ & H & _).
    rewrite (H PowerMode.HIGH); [reflexivity | | reflexivity].
    intros m'. destruct m'; simpl; congruence.
  - pose proof (C1_getpowermode_resolution (Demo.steady (JObj Demo.eco_fields)) Demo.codes
                  Demo.robot Demo.fresh _ Demo.eco_fields eq_refl) as (_ & _ & H & _).
    rewrite (H true); reflexivity.
  - pose proof (C1_getpowermode_resolution (Demo.steady (JObj Demo.bare_fields)) Demo.codes
                  Demo.robot Demo.fresh _ Demo.bare_fields eq_refl) as (_ & _ & _ & H).
    rewrite H; reflexivity.
Defined.

(** A [PowerMode] field that holds null is no integer to translate: the
    code takes it for an absent field and goes on to [EcoMode]. *)
Example getpowermode_null_PowerMode :
  fst (CloudRobot.getpowermode
         (Demo.steady (JObj {[ "PowerMode" := JNull; "EcoMode" := JBool false ]}))
         Demo.codes Demo.robot Demo.fresh) = Ok PowerMode.HIGH.
Proof. reflexivity. Qed.

(** A code that belongs to no member is refused by the enum. *)
Example getpowermode_unknown_code :
  fst (CloudRobot.getpowermode (Demo.steady (JObj {[ "PowerMode" := JInt 7 ]}))
         Demo.codes Demo.robot Demo.fresh) = Raise ValueError.
Proof. reflexivity. Qed.

(** C2.  Every command issuance invalidates the cache, whatever the
    websocket answers (success or an exception at any step): after
    [_sendCommand], and so after [startclean], [gohome], [pauseclean] and
    [stopclean], and after a [setpowermode] that made any websocket call,
    the cache is dirty and the next snapshot read issues the snapshot
    request. *)
Theorem C2_commands_invalidate_cache (env : Env) (value : PowerMode.t -> Z)
    (self : CloudRobot.t) (w : world) :
  has_credentials (CloudRobot.cloudclient self) ->
  (forall body, invalidated env self (snd (CloudRobot._sendCommand env self body w))) /\
  invalidated env self (snd (CloudRobot.startclean env self w)) /\
  invalidated env self (snd (CloudRobot.gohome env self w)) /\
  invalidated env self (snd (CloudRobot.pauseclean env self w)) /\
  invalidated env self (snd (CloudRobot.stopclean env self w)) /\
  (forall mode,
     sent_command (trace w) (trace (snd (CloudRobot.setpowermode env value self mode w))) ->
     invalidated env self (snd (CloudRobot.setpowermode env value self mode w))).
Proof.
  intros Hwf.
  split; [intros body; apply sendCommand_invalidates; exact Hwf|].
  do 4 (split; [apply sendCommand_invalidates; exact Hwf|]).
  intros mode Hsent.
  destruct (setpowermode_cases env value self mode w) as [E|[body E]]; rewrite E in *.
  - exfalso. apply Hsent. symmetry. apply getinfo_ws_count.
  - apply sendCommand_invalidates; exact Hwf.
Qed.

(** C2, with a websocket endpoint that refuses the connection: the failed
    [startclean] and the failed [setpowermode] still invalidate. *)
Lemma C2_commands_invalidate_cache_witness :
  has_credentials Demo.client /\
  fst (CloudRobot.startclean (Demo.ws_down (JObj Demo.eco_fields)) Demo.robot Demo.fresh)
    = Raise (TransportError "connection refused") /\
  invalidated (Demo.ws_down (JObj Demo.eco_fields)) Demo.robot
    (snd (CloudRobot.startclean (Demo.ws_down (JObj Demo.eco_fields)) Demo.robot Demo.fresh)) /\
  invalidated (Demo.ws_down (JObj Demo.eco_fields)) Demo.robot
    (snd (CloudRobot.setpowermode (Demo.ws_down (JObj Demo.eco_fields)) Demo.codes
            Demo.robot PowerMode.HIGH Demo.fresh)).
Proof.
  assert (Hwf : has_credentials Demo.client) by (split; eexists; reflexivity).
  pose proof (C2_commands_invalidate_cache (Demo.ws_down (JObj Demo.eco_fields)) Demo.codes
                Demo.robot Demo.fresh Hwf) as (_ & Hstart & _ & _ & _ & Hmode).
  split; [exact Hwf|]. split; [reflexivity|]. split; [exact Hstart|].
  apply Hmode. unfold sent_command. vm_compute. discriminate.
Defined.

(** The scenario of the specification: a robot reporting [PowerMode] 1
    reads as LOW; setting HIGH sends one frame with the code of HIGH; the
    read after it fetches again. *)
Example setpowermode_scenario :
  let env := Demo.steady (JObj {[ "PowerMode" := JInt 1 ]}) in
  let '(r, w) := (do before <- CloudRobot.getpowermode env Demo.codes Demo.robot;
                  exec CloudRobot.setpowermode env Demo.codes Demo.robot PowerMode.HIGH;
                  exec CloudRobot._getinfo env Demo.robot;
                  ret before) Demo.fresh in
  r = Ok PowerMode.LOW /\
  http_count (trace w) = 2%nat /\
  List.filter (fun e => match e with EvWs (WsSend _) _ => true | _ => false end) (trace w)
  = [EvWs (WsSend (JObj {[ "Type" := JInt 1; "Command" := JStr "AppUpdate";
                           "Body" := JObj {[ "PowerMode" := JInt 3 ]} ]}))
          (Answer "")].
Proof. repeat split. Qed.

(** C4.  On a robot whose snapshot carries a boolean [EcoMode] and no
    [PowerMode] field, [setpowermode] with a mode other than MEDIUM and HIGH
    raises the "Robot does not support ..." exception and makes no websocket
    call: the handle and the trace are as the snapshot read left them. *)
Theorem C4_setpowermode_unsupported_on_eco_only (env : Env) (value : PowerMode.t -> Z)
    (self : CloudRobot.t) (w w1 : world) (m : gmap string json) (b : bool)
    (mode : PowerMode.t) :
  CloudRobot._getinfo env self w = (Ok (JObj m), w1) ->
  m !! "PowerMode" = None ->
  m !! "EcoMode" = Some (JBool b) ->
  mode <> PowerMode.MEDIUM ->
  mode <> PowerMode.HIGH ->
  CloudRobot.setpowermode env value self mode w
    = (Raise (Exception ("Robot does not support " +:+ PowerMode.str mode)), w1) /\
  mode = PowerMode.LOW /\
  ws_count (trace w1) = ws_count (trace w).
Proof.
  intros H Hp He Hm Hh.
  rewrite (setpowermode_after_read env value self mode w m w1 H), Hp, He. simpl.
  destruct (decide (mode = PowerMode.MEDIUM)); [contradiction|].
  destruct (decide (mode = PowerMode.HIGH)); [contradiction|].
  split; [reflexivity|]. split; [destruct mode; congruence|].
  pose proof (getinfo_ws_count env self w) as Hws. rewrite H in Hws. exact Hws.
Qed.

(** C4, on a fresh handle whose backend reports [EcoMode] only: LOW is
    refused after the one snapshot request, and nothing else is in the trace. *)
Lemma C4_setpowermode_unsupported_on_eco_only_witness :
  let '(r, w1) := CloudRobot.setpowermode (Demo.steady (JObj Demo.eco_fields)) Demo.codes
                    Demo.robot PowerMode.LOW Demo.fresh in
  r = Raise (Exception "Robot does not support PowerMode.LOW") /\
  ws_count (trace w1) = 0%nat /\ http_count (trace w1) = 1%nat.
Proof.
  pose proof (C4_setpowermode_unsupported_on_eco_only
                (Demo.steady (JObj Demo.eco_fields)) Demo.codes Demo.robot Demo.fresh
                _ Demo.eco_fields true PowerMode.LOW eq_refl eq_refl eq_refl
                ltac:(discriminate) ltac:(discriminate)) as (H & _ & Hws).
  rewrite H. split; [reflexivity|]. split; [exact Hws | reflexivity].
Defined.

(** C10.  When [setpowermode] refuses (an [EcoMode]-only snapshot and a
    mode other than MEDIUM and HIGH, or a snapshot with neither field), the
    cache is not invalidated: the snapshot read by the representation check
    stays cached and clean, and the next read returns it without any
    request. *)
Theorem C10_refused_setpowermode_keeps_cache (env : Env) (value : PowerMode.t -> Z)
    (self : CloudRobot.t) (w w1 : world) (m : gmap string json) (mode : PowerMode.t) :
  CloudRobot._getinfo env self w = (Ok (JObj m), w1) ->
  m !! "PowerMode" = None ->
  ((exists b, m !! "EcoMode" = Some (JBool b)) /\
     mode <> PowerMode.MEDIUM /\ mode <> PowerMode.HIGH) \/
  m !! "EcoMode" = None ->
  (exists msg, CloudRobot.setpowermode env value self mode w = (Raise (Exception msg), w1)) /\
  cache w1 = {| cache_data := Some (JObj m); cache_dirty := false |} /\
  CloudRobot._getinfo env self w1 = (Ok (JObj m), w1) /\
  ~ invalidated env self w1.
Proof.
  intros H Hp Hcase.
  pose proof (getinfo_ok_cached env self w _ w1 H) as Hc.
  split; [|split; [exact Hc|split; [exact (getinfo_hit env self w1 _ Hc)|]]].
  - rewrite (setpowermode_after_read env value self mode w m w1 H), Hp.
    destruct Hcase as [([b He] & Hm & Hh)| He]; rewrite He; simpl.
    + destruct (decide (mode = PowerMode.MEDIUM)); [contradiction|].
      destruct (decide (mode = PowerMode.HIGH)); [contradiction|].
      eexists; reflexivity.
    + eexists; reflexivity.
  - intros [Hd _]. rewrite Hc in Hd. discriminate.
Qed.

(** C10, on a fresh handle whose backend reports neither field: the refusal
    costs the one snapshot request, and reading again costs none. *)
Lemma C10_refused_setpowermode_keeps_cache_witness :
  let env := Demo.steady (JObj Demo.bare_fields) in
  let '(r, w1) := CloudRobot.setpowermode env Demo.codes Demo.robot PowerMode.HIGH
                    Demo.fresh in
  r = Raise (Exception "Robot does not support setting powermode") /\
  CloudRobot._getinfo env Demo.robot w1 = (Ok (JObj Demo.bare_fields), w1) /\
  http_count (trace w1) = 1%nat.
Proof.
  pose proof (C10_refused_setpowermode_keeps_cache
                (Demo.steady (JObj Demo.bare_fields)) Demo.codes Demo.robot Demo.fresh
                _ Demo.bare_fields PowerMode.HIGH eq_refl eq_refl
                (or_intror eq_refl)) as ([msg H] & _ & Hread & _).
  cbv zeta. rewrite H. split; [|split; [exact Hread | reflexivity]].
  vm_compute in H. injection H as <-. reflexivity.
Defined.

(* ------------------------------------------------------------------ *)
(** ** History retrieval *)
(* ------------------------------------------------------------------ *)

(** The conversion of one entry agrees with [item_session]. *)
Lemma session_of_item_json x d :
  item_session x = Some d ->
  CloudRobot.session_of_item (item_json x) = Ok d.
Proof.
  destruct x as [ts area [[[u|] pm co ue ie]|]]; simpl; try discriminate.
  - intros [= <-]. unfold CloudRobot.session_of_item, item_json.
    cbn [Py.getitem obind]. 
    destruct u as [|a u]; reflexivity.
  - intros [= <-]. reflexivity.
Qed.

(** The filter's test on an entry as the backend sends it. *)
Lemma getitem_CleaningSession x :
  exists v, Py.getitem (item_json x) "CleaningSession" = Ok v /\
            Py.is_not_None v = match CleaningSession x with Some _ => true | None => false end.
Proof.
  destruct x as [ts area [cs|]]; eexists; (split; [reflexivity|]); reflexivity.
Qed.

(** A page's items convert to the page's sessions: placeholders are
    skipped, the others converted, in order. *)
Lemma sessions_of_items_json page :
  CloudRobot.sessions_of_items (item_json <$> page) = Ok (page_sessions page).
Proof.
  unfold page_sessions. induction page as [|x page IH]; [reflexivity|].
  rewrite fmap_cons. cbn [CloudRobot.sessions_of_items omap list_omap].
  destruct (getitem_CleaningSession x) as (v & -> & Hv). cbn [obind]. rewrite Hv, IH.
  destruct (item_session x) as [d|] eqn:Hx.
  - rewrite (session_of_item_json x d Hx).
    unfold item_session in Hx. destruct (CleaningSession x); [reflexivity|discriminate].
  - unfold item_session in Hx. destruct (CleaningSession x); [discriminate|reflexivity].
Qed.

Section HistoryFacts.

Variable env : Env.
Variable self : CloudRobot.t.
Variables email password : string.
Hypothesis credentials_email :
  CloudClient.credentials (CloudRobot.cloudclient self) !! "Email" = Some email.
Hypothesis credentials_password :
  CloudClient.credentials (CloudRobot.cloudclient self) !! "AccountPassword" = Some password.

(** One call: the request goes out, and the rest of the body runs on the
    answer. *)
Lemma getCleaningSessions_answer fuel nextptr w r :
  http_oracle env (trace w) (CloudRobot.CleanedAreas_request self email password nextptr)
    = Answer r ->
  CloudRobot.getCleaningSessions env self (S fuel) nextptr w =
    (if Z.eqb (status_code r) 204 then ret []
     else
       do js <- lift (response_json r);
       do items <- lift (val raw <- Py.getitem js "Items";
                         val xs <- Py.iter raw;
                         CloudRobot.sessions_of_items xs);
       do next <- lift (Py.getitem js "Next");
       if Py.is_not_None next then
         do next <- lift (Py.getitem js "Next");
         do more <- CloudRobot.getCleaningSessions env self fuel next;
         ret (items ++ more)
       else ret items)
    {| cache := cache w;
       trace := trace w ++ [EvHttp (CloudRobot.CleanedAreas_request self email password nextptr)
                                   (Answer r)] |}.
Proof.
  intros Ho. cbn [CloudRobot.getCleaningSessions].
  rewrite bind_eq. unfold lift at 1, dict_get at 1. rewrite credentials_email.
  rewrite bind_eq. unfold lift at 1, dict_get at 1. rewrite credentials_password.
  rewrite bind_eq. unfold do_http at 1. rewrite Ho. reflexivity.
Qed.

(** A served chain is retrieved whole: the sessions of its pages, in page
    order, with one request per page (and one more for a no-content end). *)
Lemma getCleaningSessions_chain pages last :
  forall nextptr w fuel,
  serves env self email password (trace w) nextptr pages last ->
  (chain_requests pages last <= fuel)%nat ->
  exists evs,
    CloudRobot.getCleaningSessions env self fuel nextptr w
      = (Ok (concat (page_sessions <$> pages)),
         {| cache := cache w; trace := trace w ++ evs |}) /\
    length evs = chain_requests pages last /\
    http_count evs = length evs.
Proof.
  induction pages as [|page rest IH]; intros nextptr w fuel Hs Hfuel.
  - destruct Hs as (-> & r & Ho & H204). cbn in Hfuel.
    destruct fuel as [|fuel]; [lia|].
    rewrite (getCleaningSessions_answer fuel nextptr w r Ho), H204.
    eexists. split; [reflexivity|]. split; reflexivity.
  - destruct Hs as (r & m & next & Ho & Hst & Hc & Hi & Hn & Hrest).
    assert (Hf : (1 <= fuel)%nat) by (destruct last; cbn in Hfuel; lia).
    destruct fuel as [|fuel]; [lia|].
    rewrite (getCleaningSessions_answer fuel nextptr w r Ho).
    destruct (Z.eqb_spec (status_code r) 204) as [E|_]; [contradiction|].
    rewrite bind_eq. unfold lift at 1, response_json. rewrite Hc.
    rewrite bind_eq. unfold lift at 1. cbn [Py.getitem]. rewrite Hi.
    cbn [obind Py.iter]. rewrite sessions_of_items_json.
    rewrite bind_eq. unfold lift at 1. rewrite Hn.
    destruct Hrest as [(-> & -> & ->)|(Hnn & Hs)].
    + cbn [Py.is_not_None fmap list_fmap concat]. unfold ret. rewrite app_nil_r.
      eexists. split; [reflexivity|]. split; reflexivity.
    + replace (Py.is_not_None next) with true by (destruct next; first [reflexivity | congruence]).
      rewrite bind_eq. unfold lift at 1.
      rewrite bind_eq.
      match goal with |- context [CloudRobot.getCleaningSessions env self fuel next ?w1] =>
        destruct (IH next w1 fuel Hs) as (evs & -> & Hlen & Hhttp) end.
      { destruct last; cbn in Hfuel |- *; lia. }
      cbn [trace cache]. unfold ret. rewrite <- app_assoc.
      eexists. split; [reflexivity|]. split.
      * cbn [length app]. rewrite Hlen. destruct last; reflexivity.
      * change (?a :: evs) with ([a] ++ evs). rewrite http_count_app, Hhttp.
        reflexivity.
Qed.

End HistoryFacts.






Section HistoryTermination.

Variable env : Env.
Variable self : CloudRobot.t.
Variables email password : string.
Hypothesis credentials_email :
  CloudClient.credentials (CloudRobot.cloudclient self) !! "Email" = Some email.
Hypothesis credentials_password :
  CloudClient.credentials (CloudRobot.cloudclient self) !! "AccountPassword" = Some password.

(** One call whose request fails: the transport's exception propagates. *)
Lemma getCleaningSessions_failure fuel nextptr w e :
  http_oracle env (trace w) (CloudRobot.CleanedAreas_request self email password nextptr)
    = Failure e ->
  fst (CloudRobot.getCleaningSessions env self (S fuel) nextptr w) = Raise e.
Proof.
  intros Ho. cbn [CloudRobot.getCleaningSessions].
  rewrite bind_eq. unfold lift at 1, dict_get at 1. rewrite credentials_email.
  rewrite bind_eq. unfold lift at 1, dict_get at 1. rewrite credentials_password.
  rewrite bind_eq. unfold do_http at 1. rewrite Ho. reflexivity.
Qed.


End HistoryTermination.

(** C3.  When the backend serves the pages P1..Pn, each but the last with
    a non-null [Next] that the next request is made with and the last with a
    null [Next], [getCleaningSessions] returns the sessions of P1, then of
    P2, ..., then of Pn: every entry in order, converted, with the entries
    whose [CleaningSession] is null dropped.  It takes one request per
    page, and any recursion depth of at least n. *)
Theorem C3_history_is_concatenation_of_pages (env : Env) (self : CloudRobot.t)
    (email password : string) (pages : list (list history_item)) (nextptr : json)
    (w : world) (fuel : nat) :
  CloudClient.credentials (CloudRobot.cloudclient self) !! "Email" = Some email ->
  CloudClient.credentials (CloudRobot.cloudclient self) !! "AccountPassword" = Some password ->
  serves env self email password (trace w) nextptr pages NullNext ->
  (length pages <= fuel)%nat ->
  exists w',
    CloudRobot.getCleaningSessions env self fuel nextptr w
      = (Ok (concat (page_sessions <$> pages)), w') /\
    cache w' = cache w /\
    http_count (trace w') = (http_count (trace w) + length pages)%nat.
Proof.
  intros He Hp Hs Hfuel.
  destruct (getCleaningSessions_chain env self email password He Hp pages NullNext
              nextptr w fuel Hs Hfuel) as (evs & Hrun & Hlen & Hhttp).
  eexists. split; [exact Hrun|]. split; [reflexivity|].
  cbn [trace]. rewrite http_count_app, Hhttp, Hlen. reflexivity.
Qed.

(** C3, on pages of 50, 50 and 12 entries with one placeholder in the
    second: 111 sessions, the first of page one first and the last of page
    three last, after three requests. *)
Lemma C3_history_is_concatenation_of_pages_witness :
  let '(r, w') := CloudRobot.getCleaningSessions Demo.three_pages Demo.robot 3 JNull
                    Demo.fresh in
  r = Ok (page_sessions Demo.page1 ++ page_sessions Demo.page2 ++ page_sessions Demo.page3)
  /\ length (page_sessions Demo.page1 ++ page_sessions Demo.page2
             ++ page_sessions Demo.page3) = 111%nat
  /\ http_count (trace w') = 3%nat.
Proof.
  assert (Hs : serves Demo.three_pages Demo.robot "user@example.org" "c2VjcmV0"
                 (trace Demo.fresh) JNull [Demo.page1; Demo.page2; Demo.page3] NullNext).
  { do 3 eexists. split; [reflexivity|]. split; [discriminate|].
    split; [reflexivity|]. split; [reflexivity|]. split; [reflexivity|].
    right. split; [discriminate|].
    do 3 eexists. split; [reflexivity|]. split; [discriminate|].
    split; [reflexivity|]. split; [reflexivity|]. split; [reflexivity|].
    right. split; [discriminate|].
    do 3 eexists. split; [reflexivity|]. split; [discriminate|].
    split; [reflexivity|]. split; [reflexivity|]. split; [reflexivity|].
    left. repeat split. }
  destruct (C3_history_is_concatenation_of_pages Demo.three_pages Demo.robot
              "user@example.org" "c2VjcmV0" [Demo.page1; Demo.page2; Demo.page3]
              JNull Demo.fresh 3 eq_refl eq_refl Hs (le_n 3)) as (w' & -> & _ & Hn).
  split; [cbn [fmap list_fmap concat]; rewrite app_nil_r; reflexivity|].
  split; [vm_compute; reflexivity | exact Hn].
Defined.

(** C7.  A no-content answer (status 204) to a history request is an empty
    page, not an error: the call returns the empty list without decoding a
    body, whatever the cursor, so a no-content first page is an empty
    history; and a chain of pages that ends with a no-content answer yields
    the sessions of the pages before it. *)
Theorem C7_no_content_is_an_empty_page (env : Env) (self : CloudRobot.t)
    (email password : string) :
  CloudClient.credentials (CloudRobot.cloudclient self) !! "Email" = Some email ->
  CloudClient.credentials (CloudRobot.cloudclient self) !! "AccountPassword" = Some password ->
  (forall fuel nextptr w r,
     http_oracle env (trace w) (CloudRobot.CleanedAreas_request self email password nextptr)
       = Answer r ->
     status_code r = 204 ->
     CloudRobot.getCleaningSessions env self (S fuel) nextptr w
       = (Ok [], {| cache := cache w;
                    trace := trace w ++ [EvHttp (CloudRobot.CleanedAreas_request
                                                   self email password nextptr)
                                                (Answer r)] |})) /\
  (forall pages w fuel,
     serves env self email password (trace w) JNull pages NoContent ->
     (S (length pages) <= fuel)%nat ->
     fst (CloudRobot.getCleaningSessions env self fuel JNull w)
       = Ok (concat (page_sessions <$> pages))).
Proof.
  intros He Hp. split.
  - intros fuel nextptr w r Ho H204.
    rewrite (getCleaningSessions_answer env self email password He Hp fuel nextptr w r Ho).
    rewrite H204. reflexivity.
  - intros pages w fuel Hs Hfuel.
    destruct (getCleaningSessions_chain env self email password He Hp pages NoContent
                JNull w fuel Hs Hfuel) as (evs & -> & _). reflexivity.
Qed.

(** C7, on a backend with nothing for the first request, and on one with a
    page of twelve entries and nothing after it. *)
Lemma C7_no_content_is_an_empty_page_witness :
  fst (CloudRobot.getCleaningSessions (Demo.library []) Demo.robot 1 JNull Demo.fresh)
    = Ok [] /\
  fst (CloudRobot.getCleaningSessions Demo.page_then_nothing Demo.robot 2 JNull Demo.fresh)
    = Ok (page_sessions Demo.page3).
Proof.
  split.
  - destruct (C7_no_content_is_an_empty_page (Demo.library []) Demo.robot
                "user@example.org" "c2VjcmV0" eq_refl eq_refl) as [H _].
    rewrite (H 0%nat JNull Demo.fresh {| status_code := 204; content := None |}
               eq_refl eq_refl).
    reflexivity.
  - destruct (C7_no_content_is_an_empty_page Demo.page_then_nothing Demo.robot
                "user@example.org" "c2VjcmV0" eq_refl eq_refl) as [_ H].
    rewrite (H [Demo.page3] Demo.fresh 2%nat).
    + cbn [fmap list_fmap concat]. rewrite app_nil_r. reflexivity.
    + do 3 eexists. split; [reflexivity|]. split; [discriminate|].
      split; [reflexivity|]. split; [reflexivity|]. split; [reflexivity|].
      right. split; [discriminate|]. split; [reflexivity|].
      eexists. split; reflexivity.
    + apply le_n.
Defined.

(** A page with a non-null [Next] sends the call into the recursion. *)
Lemma getCleaningSessions_follow (env : Env) (self : CloudRobot.t)
    (email password : string) fuel nextptr w r m page next :
  CloudClient.credentials (CloudRobot.cloudclient self) !! "Email" = Some email ->
  CloudClient.credentials (CloudRobot.cloudclient self) !! "AccountPassword" = Some password ->
  http_oracle env (trace w) (CloudRobot.CleanedAreas_request self email password nextptr)
    = Answer r ->
  status_code r <> 204 ->
  content r = Some (JObj m) ->
  m !! "Items" = Some (JArr (item_json <$> page)) ->
  m !! "Next" = Some next ->
  next <> JNull ->
  CloudRobot.getCleaningSessions env self (S fuel) nextptr w =
    (do more <- CloudRobot.getCleaningSessions env self fuel next;
     ret (page_sessions page ++ more))
    {| cache := cache w;
       trace := trace w ++ [EvHttp (CloudRobot.CleanedAreas_request self email password nextptr)
                                   (Answer r)] |}.
Proof.
  intros He Hp Ho Hst Hc Hi Hn Hnn.
  rewrite (getCleaningSessions_answer env self email password He Hp fuel nextptr w r Ho).
  destruct (Z.eqb_spec (status_code r) 204) as [E|_]; [contradiction|].
  rewrite bind_eq. unfold lift at 1, response_json. rewrite Hc.
  rewrite bind_eq. unfold lift at 1. cbn [Py.getitem]. rewrite Hi.
  cbn [obind Py.iter]. rewrite sessions_of_items_json.
  rewrite bind_eq. unfold lift at 1. rewrite Hn.
  replace (Py.is_not_None next) with true by (destruct next; first [reflexivity | congruence]).
  rewrite bind_eq. reflexivity.
Qed.

(** On the cyclic backend the recursion uses up whatever depth it is
    given, from the first request or from the cursor that names itself. *)
Lemma cyclic_out_of_fuel fuel :
  forall w,
  fst (CloudRobot.getCleaningSessions Demo.cyclic Demo.robot fuel JNull w) = OutOfFuel /\
  fst (CloudRobot.getCleaningSessions Demo.cyclic Demo.robot fuel (JStr "A") w) = OutOfFuel.
Proof.
  induction fuel as [|fuel IH]; intros w; [split; reflexivity|].
  assert (Hbind : forall (items : list json) w1,
    fst ((do more <- CloudRobot.getCleaningSessions Demo.cyclic Demo.robot fuel (JStr "A");
          ret (items ++ more)) w1) = OutOfFuel).
  { intros items w1. rewrite bind_eq. destruct (IH w1) as [_ H].
    destruct (CloudRobot.getCleaningSessions Demo.cyclic Demo.robot fuel (JStr "A") w1)
      as [[more| |] w2]; cbn [fst] in H; try discriminate. reflexivity. }
  split.
  - erewrite (getCleaningSessions_follow Demo.cyclic Demo.robot "user@example.org" "c2VjcmV0"
                fuel JNull w _ _ Demo.page3 (JStr "A"));
      [apply Hbind | reflexivity | reflexivity | reflexivity | discriminate
      | reflexivity | reflexivity | reflexivity | discriminate].
  - erewrite (getCleaningSessions_follow Demo.cyclic Demo.robot "user@example.org" "c2VjcmV0"
                fuel (JStr "A") w _ _ [Demo.placeholder 0] (JStr "A"));
      [apply Hbind | reflexivity | reflexivity | reflexivity | discriminate
      | reflexivity | reflexivity | reflexivity | discriminate].
Qed.

(** Each level of the recursion asks the cyclic backend again. *)
Example cyclic_requests :
  http_count (trace (snd (CloudRobot.getCleaningSessions Demo.cyclic Demo.robot 40 JNull
                            Demo.fresh))) = 40%nat.
Proof. vm_compute. reflexivity. Qed.






(* ------------------------------------------------------------------ *)
(** ** Maps *)
(* ------------------------------------------------------------------ *)

Lemma string_app_inv_head (s a b : string) : s +:+ a = s +:+ b -> a = b.
Proof.
  induction s as [|c s IH]; [auto|].
  change (String c s +:+ ?x) with (String c (s +:+ x)). intros [= H]. auto.
Qed.

Lemma string_app_assoc (a b c : string) : (a +:+ b) +:+ c = a +:+ (b +:+ c).
Proof.
  induction a as [|x a IH]; [reflexivity|].
  change (String x a +:+ ?y) with (String x (a +:+ y)).
  change (String x (a +:+ b) +:+ c) with (String x ((a +:+ b) +:+ c)).
  rewrite IH. reflexivity.
Qed.

(** The image of a map lives at another address than the listing. *)
Lemma image_url_is_not_listing_url (map : CloudMap.t) mid :
  CloudMap.cloudclient map = CloudRobot.cloudclient (CloudMap.robot map) ->
  rq_url (Image_request map mid) <> rq_url (Maps_request (CloudMap.robot map)).
Proof.
  intros Hc. unfold Image_request, Maps_request. cbn [rq_url]. rewrite Hc.
  rewrite !string_app_assoc. intros H.
  do 3 apply string_app_inv_head in H. discriminate H.
Qed.

Lemma map_outcome_Forall2 {A B} (f : A -> outcome B) xs ys :
  map_outcome f xs = Ok ys -> Forall2 (fun x y => f x = Ok y) xs ys.
Proof.
  revert ys. induction xs as [|x xs IH]; intros ys; cbn [map_outcome].
  - intros [= <-]. constructor.
  - destruct (f x) as [y| |] eqn:Hy; cbn [obind]; try discriminate.
    destruct (map_outcome f xs) as [ys'| |]; cbn [obind]; try discriminate.
    intros [= <-]. constructor; auto.
Qed.

(** A zone is built from the four fields of its element of the listing. *)
Lemma CloudZone_init_fields z zone :
  CloudZone.init z = Ok zone -> zone_from_listing z zone.
Proof.
  unfold CloudZone.init, zone_from_listing.
  destruct z as [| | | | |m]; try discriminate. cbn [Py.getitem].
  destruct (m !! "Id") as [i|] eqn:Hi; cbn [obind]; try discriminate.
  destruct (m !! "Name") as [n|] eqn:Hn; cbn [obind]; try discriminate.
  destruct (m !! "ZoneType") as [ty|] eqn:Ht; cbn [obind]; try discriminate.
  destruct (m !! "RoomCategory") as [rc|] eqn:Hr; cbn [obind]; try discriminate.
  intros [= <-]. exists m. cbn. auto.
Qed.

(** Construction copies the client from the robot and fetches nothing. *)
Lemma CloudMap_init_fields self x map :
  CloudMap.init self x = Ok map ->
  CloudMap.robot map = self /\
  CloudMap.cloudclient map = CloudRobot.cloudclient self /\
  CloudMap.info map = JNull /\ CloudMap.image map = JNull /\
  zones_from_listing x map.
Proof.
  unfold CloudMap.init, zones_from_listing.
  destruct x as [| | | | |m]; try discriminate. cbn [Py.getitem].
  destruct (m !! "Id") as [i|]; cbn [obind]; try discriminate.
  destruct (m !! "InteractiveId") as [ii|]; cbn [obind]; try discriminate.
  destruct (m !! "Name") as [n|]; cbn [obind]; try discriminate.
  destruct (m !! "Zones") as [raw|] eqn:Hraw; cbn [obind]; try discriminate.
  destruct (Py.iter raw) as [zs| |] eqn:Hi; cbn [obind]; try discriminate.
  destruct (map_outcome CloudZone.init zs) as [zones| |] eqn:Hz; cbn [obind]; try discriminate.
  intros [= <-]. cbn. do 4 (split; [reflexivity|]). exists m, raw, zs.
  split; [reflexivity|]. split; [exact Hraw|]. split; [exact Hi|].
  eapply Forall2_impl; [exact (map_outcome_Forall2 _ _ _ Hz)|].
  exact CloudZone_init_fields.
Qed.

(** C9.  [getMaps] makes one request, the listing, and builds every map
    from its entry of the listing: the map has one zone for each element of
    the entry's [Zones], in order, holding the [Id], [Name], [ZoneType] and
    [RoomCategory] of that element, and no image is fetched or stored.
    [getImage] on such a map makes one request
    of its own, to another address than the listing's, and returns the
    decoded body as it came: no field decoded, none removed. *)
Theorem C9_map_listing_and_image (env : Env) (self : CloudRobot.t) (w : world)
    (r : http_response) (xs : list json) (maps : list CloudMap.t) :
  http_oracle env (trace w) (Maps_request self) = Answer r ->
  content r = Some (JArr xs) ->
  map_outcome (CloudMap.init self) xs = Ok maps ->
  getMaps env self w = (Ok maps, {| cache := cache w;
     trace := trace w ++ [EvHttp (Maps_request self) (Answer r)] |}) /\
  Forall2 (fun x map => zones_from_listing x map /\ CloudMap.image map = JNull) xs maps /\
  forall map mid w1 r1 js,
    map ∈ maps ->
    CloudMap.id map = JStr mid ->
    http_oracle env (trace w1) (Image_request map mid) = Answer r1 ->
    content r1 = Some js ->
    CloudMap.getImage env map w1
      = (Ok js, {| cache := cache w1;
                   trace := trace w1 ++ [EvHttp (Image_request map mid) (Answer r1)] |}) /\
    rq_url (Image_request map mid) <> rq_url (Maps_request self).
Proof.
  intros Ho Hc Hmaps.
  pose proof (map_outcome_Forall2 _ _ _ Hmaps) as Hall.
  split; [|split].
  - unfold getMaps. rewrite bind_eq. unfold do_http at 1.
    change (http_oracle env (trace w) _) with (http_oracle env (trace w) (Maps_request self)).
    rewrite Ho. cbn [of_reply]. unfold lift, response_json. rewrite Hc.
    cbn [obind Py.iter]. rewrite Hmaps. reflexivity.
  - eapply Forall2_impl; [exact Hall|]. intros x map Hx.
    destruct (CloudMap_init_fields self x map Hx) as (_ & _ & _ & Himg & Hz). auto.
  - intros map mid w1 r1 js Hin Hid Ho1 Hc1.
    apply list_elem_of_lookup in Hin as [k Hk].
    destruct (Forall2_lookup_r _ _ _ _ _ Hall Hk) as (x & _ & Hx).
    destruct (CloudMap_init_fields self x map Hx) as (Hrobot & Hclient & _).
    split.
    + unfold CloudMap.getImage. rewrite bind_eq. unfold lift at 1. rewrite Hid.
      cbn [Py.str_add]. rewrite bind_eq. unfold do_http at 1.
      change (http_oracle env (trace w1) _)
        with (http_oracle env (trace w1) (Image_request map mid)).
      rewrite Ho1. cbn [of_reply]. rewrite bind_eq. unfold lift, response_json.
      rewrite Hc1. reflexivity.
    + pose proof (image_url_is_not_listing_url map mid) as Hne.
      rewrite Hrobot in Hne. apply Hne. exact Hclient.
Qed.

(** C9, on the backend with one map: the listing costs one request and
    gives the map with the two zones of the listing, Kitchen and Hall, and
    no image; the image costs a second request and comes back as the
    backend sent it. *)
Lemma C9_map_listing_and_image_witness :
  exists map,
    fst (getMaps Demo.atlas Demo.robot Demo.fresh) = Ok [map] /\
    CloudMap.zones map
    = [ {| CloudZone.id := JStr "z1"; CloudZone.name := JStr "Kitchen";
           CloudZone.type := JInt 0; CloudZone.roomcategory := JInt 3 |};
        {| CloudZone.id := JStr "z2"; CloudZone.name := JStr "Hall";
           CloudZone.type := JInt 1; CloudZone.roomcategory := JInt 5 |} ] /\
    CloudMap.image map = JNull /\
    http_count (trace (snd (getMaps Demo.atlas Demo.robot Demo.fresh))) = 1%nat /\
    CloudMap.getImage Demo.atlas map (snd (getMaps Demo.atlas Demo.robot Demo.fresh))
      = (Ok Demo.image_payload,
         {| cache := CachedData.init;
            trace := [EvHttp (Maps_request Demo.robot)
                        (Answer {| status_code := 200;
                                   content := Some (JArr [Demo.map_entry]) |});
                      EvHttp (Image_request map "map-1")
                        (Answer {| status_code := 200;
                                   content := Some Demo.image_payload |})] |}).
Proof.
  destruct (map_outcome (CloudMap.init Demo.robot) [Demo.map_entry]) as [maps| |] eqn:Hmaps;
    [|discriminate Hmaps|discriminate Hmaps].
  destruct (C9_map_listing_and_image Demo.atlas Demo.robot Demo.fresh
              {| status_code := 200; content := Some (JArr [Demo.map_entry]) |}
              [Demo.map_entry] maps eq_refl eq_refl Hmaps) as (Hlist & _ & Himage).
  vm_compute in Hmaps. injection Hmaps as <-.
  eexists. rewrite Hlist. cbn [fst snd].
  split; [reflexivity|]. split; [reflexivity|]. split; [reflexivity|].
  split; [reflexivity|].
  match goal with |- CloudMap.getImage _ ?m ?w1 = _ =>
    destruct (Himage m "map-1" w1 {| status_code := 200; content := Some Demo.image_payload |}
                Demo.image_payload) as [-> _];
      [apply list_elem_of_singleton; reflexivity | reflexivity | reflexivity | reflexivity
      | reflexivity] end.
Defined.

(* ------------------------------------------------------------------ *)
(** ** The account checksum *)
(* ------------------------------------------------------------------ *)

(** The constants are those of the standard. *)
Example sha256_constants :
  head SHA256.K = Some 0x428a2f98 /\ last SHA256.K = Some 0xc67178f2 /\
  length SHA256.K = 64%nat /\
  head SHA256.H0 = Some 0x6a09e667 /\ last SHA256.H0 = Some 0x5be0cd19.
Proof. vm_compute. repeat split. Qed.

(** The library functions agree with their published test vectors. *)
Example sha256_abc :
  hex (SHA256.digest (codepoints "abc"))
  = "ba7816bf8f01cfea414140de5dae2223b00361a396177a9cb410ff61f20015ad".
Proof. vm_compute. reflexivity. Qed.

Example sha256_two_blocks :
  hex (SHA256.digest (codepoints "abcdbcdecdefdefgefghfghighijhijkijkljklmklmnlmnomnopnopq"))
  = "248d6a61d20638b8e5c026930c3e6039a33ce45964ff2167f6ecedd419db06c1".
Proof. vm_compute. reflexivity. Qed.

Example b64encode_padding :
  ascii_str (Base64.b64encode (codepoints "any carnal pleas")) = "YW55IGNhcm5hbCBwbGVhcw==" /\
  ascii_str (Base64.b64encode (codepoints "any carnal pleasu")) = "YW55IGNhcm5hbCBwbGVhc3U=" /\
  ascii_str (Base64.b64encode (codepoints "any carnal pleasur")) = "YW55IGNhcm5hbCBwbGVhc3Vy".
Proof. vm_compute. repeat split. Qed.

(** On a little-endian host, [encode("utf-16")] is the mark FF FE followed
    by the UTF-16LE encoding, so dropping two octets leaves UTF-16LE. *)
Lemma encode_utf_16_drop_mark (s : list Z) :
  (val buf <- Codec.encode_utf_16 Codec.Little s; Ok (drop 2 buf))
  = Codec.encode_utf_16_le s.
Proof.
  unfold Codec.encode_utf_16, Codec.encode_utf_16_le.
  destruct (Codec.encode_units Codec.Little s); reflexivity.
Qed.

(** On a big-endian host the octets that remain are UTF-16BE. *)
Example encode_utf_16_big_endian :
  (val buf <- Codec.encode_utf_16 Codec.Big (codepoints "pw"); Ok (drop 2 buf))
  = Ok [0; 112; 0; 119] /\
  Codec.encode_utf_16_le (codepoints "pw") = Ok [112; 0; 119; 0].
Proof. split; reflexivity. Qed.

(** Every command opens the websocket with the client's credentials and
    the robot's id as headers. *)
Lemma sendCommand_connects (env : Env) (self : CloudRobot.t) body w :
  exists rs rest,
    trace (snd (CloudRobot._sendCommand env self body w))
    = trace w ++ EvWs (WsConnect websocket_url
                         (<["RobotId" := CloudRobot.id self]>
                            (CloudClient.credentials (CloudRobot.cloudclient self)))) rs
                 :: rest.
Proof.
  unfold CloudRobot._sendCommand. run_monad.
  repeat match goal with
  | |- context [ws_oracle env ?t ?op] =>
      let a := fresh "a" in destruct (ws_oracle env t op) as [a|a]; run_monad
  end;
  rewrite <- ?app_assoc; do 2 eexists; reflexivity.
Qed.

(** The snapshot request authenticates with the client's [httpauth] and
    carries the client's ["AccountPassword"]. *)
Lemma getinfo_inner_request (env : Env) (self : CloudRobot.t) email password w :
  CloudClient.credentials (CloudRobot.cloudclient self) !! "Email" = Some email ->
  CloudClient.credentials (CloudRobot.cloudclient self) !! "AccountPassword" = Some password ->
  exists rq rs m,
    trace (snd (CloudRobot._getinfo_inner env self w)) = trace w ++ [EvHttp rq rs] /\
    rq_auth rq = Some (CloudClient.httpauth (CloudRobot.cloudclient self)) /\
    rq_json rq = Some (JObj m) /\
    m !! "AccountPassword" = Some (JStr password).
Proof.
  intros He Hp.
  unfold CloudRobot._getinfo_inner, bind, lift, do_http, dict_get. rewrite He, Hp.
  cbn [trace cache].
  match goal with |- context [http_oracle env ?t ?q] =>
    set (rq := q); destruct (http_oracle env t rq) as [r|e] end; cbn [of_reply].
  - exists rq, (Answer r). eexists.
    destruct (response_json r); cbn [snd trace];
      (split; [reflexivity|]); (split; [reflexivity|]); (split; [reflexivity|]);
      reflexivity.
  - exists rq, (Failure e). eexists. cbn [snd trace].
    split; [reflexivity|]. split; [reflexivity|]. split; reflexivity.
Qed.

(** C8.  On a little-endian host, for every password, the checksum is
    base64(SHA-256(UTF-16LE(password + salt))), with the salt of the source
    (and fails exactly when the password cannot be encoded).  The client
    keeps that checksum, not the password, as ["AccountPassword"] and as the
    password of the HTTP basic authentication, and a robot of that client
    sends the checksum: in the headers that open the websocket, and as basic
    authentication and in the body of the snapshot request.  The client is
    built from the checksum alone, so two passwords with one checksum give
    one client. *)
Theorem C8_credential_is_salted_sha256 (email : string) (pw : list Z) :
  CloudClient.chksum Codec.Little pw
  = (val buf <- Codec.encode_utf_16_le (pw ++ codepoints CloudClient.salt);
     Ok (ascii_str (Base64.b64encode (SHA256.digest buf)))) /\
  CloudClient.salt = "947X6kdLJyrhlCDzUyzFwT4s4NZL3O8eLs0PE4Hi7hU=" /\
  (forall c, CloudClient.init Codec.Little email pw = Ok c ->
     exists buf,
       Codec.encode_utf_16_le (pw ++ codepoints CloudClient.salt) = Ok buf /\
       let digest := ascii_str (Base64.b64encode (SHA256.digest buf)) in
       CloudClient.credentials c !! "AccountPassword" = Some digest /\
       CloudClient.credentials c !! "Email" = Some email /\
       CloudClient.httpauth c = (email, digest) /\
       forall env rid body w,
         let self := {| CloudRobot.cloudclient := c; CloudRobot.id := rid |} in
         (exists header rs rest,
            trace (snd (CloudRobot._sendCommand env self body w))
            = trace w ++ EvWs (WsConnect websocket_url header) rs :: rest /\
            header !! "AccountPassword" = Some digest) /\
         (exists rq rs m,
            trace (snd (CloudRobot._getinfo_inner env self w)) = trace w ++ [EvHttp rq rs] /\
            rq_auth rq = Some (email, digest) /\
            rq_json rq = Some (JObj m) /\
            m !! "AccountPassword" = Some (JStr digest))) /\
  (forall pw', CloudClient.chksum Codec.Little pw' = CloudClient.chksum Codec.Little pw ->
     CloudClient.init Codec.Little email pw' = CloudClient.init Codec.Little email pw).
Proof.
  assert (Hsum : CloudClient.chksum Codec.Little pw
    = (val buf <- Codec.encode_utf_16_le (pw ++ codepoints CloudClient.salt);
       Ok (ascii_str (Base64.b64encode (SHA256.digest buf))))).
  { unfold CloudClient.chksum. rewrite <- encode_utf_16_drop_mark.
    destruct (Codec.encode_utf_16 Codec.Little (pw ++ codepoints CloudClient.salt));
      reflexivity. }
  split; [exact Hsum|]. split; [reflexivity|]. split.
  - intros c. unfold CloudClient.init. rewrite Hsum.
    destruct (Codec.encode_utf_16_le (pw ++ codepoints CloudClient.salt)) as [buf| |];
      cbn [obind]; try discriminate.
    intros [= <-]. exists buf. split; [reflexivity|]. cbn zeta.
    set (digest := ascii_str (Base64.b64encode (SHA256.digest buf))).
    match goal with |- context [CloudClient.httpauth ?c0] => set (c := c0) end.
    assert (Hd : CloudClient.credentials c !! "AccountPassword" = Some digest)
      by (subst c; cbn [CloudClient.credentials]; simplify_map_eq; reflexivity).
    assert (Hm : CloudClient.credentials c !! "Email" = Some email)
      by (subst c; cbn [CloudClient.credentials]; simplify_map_eq; reflexivity).
    split; [exact Hd|]. split; [exact Hm|]. split; [reflexivity|].
    intros env rid body w. split.
    + destruct (sendCommand_connects env
                  {| CloudRobot.cloudclient := c; CloudRobot.id := rid |} body w)
        as (rs & rest & Ht).
      do 3 eexists. split; [exact Ht|].
      cbn [CloudRobot.cloudclient CloudRobot.id].
      rewrite lookup_insert_ne by discriminate. exact Hd.
    + destruct (getinfo_inner_request env
                  {| CloudRobot.cloudclient := c; CloudRobot.id := rid |} email digest w
                  Hm Hd) as (rq & rs & m & Ht & Hauth & Hjson & Hpw).
      exists rq, rs, m. auto.
  - intros pw' H. unfold CloudClient.init. rewrite H. reflexivity.
Qed.

(** C8, on two passwords; the expected text is what the standard tools
    (UTF-16LE conversion, SHA-256, base64) give for password + salt.  The
    second password has characters on one and on two code units. *)
Lemma C8_credential_is_salted_sha256_witness :
  (exists c, CloudClient.init Codec.Little "user@example.org" (codepoints "secret") = Ok c /\
             CloudClient.httpauth c
             = ("user@example.org", "tlqGRp1Oser8+PrOFobZS6pl4ux3JLZWGGvYuiT27hQ=")) /\
  CloudClient.chksum Codec.Little Demo.unicode_password
  = Ok "g1dtAjRd/T6uEa/tChD4qHugEZQJLJvwPcpOka0Ee4w=".
Proof.
  split.
  - destruct (CloudClient.init Codec.Little "user@example.org" (codepoints "secret"))
      as [c| |] eqn:Hc; [|vm_compute in Hc; discriminate Hc..].
    exists c. split; [reflexivity|].
    destruct (C8_credential_is_salted_sha256 "user@example.org" (codepoints "secret"))
      as (_ & _ & H & _).
    destruct (H c Hc) as (buf & Hbuf & _ & _ & -> & _).
    vm_compute in Hbuf. injection Hbuf as <-. vm_compute. reflexivity.
  - rewrite (proj1 (C8_credential_is_salted_sha256 "" Demo.unicode_password)).
    vm_compute. reflexivity.
Defined.


(* ------------------------------------------------------------------ *)
(** ** More on commands *)
(* ------------------------------------------------------------------ *)

(** X1.  The websocket session of [_sendCommand]: it makes no HTTP request;
    it connects first, with the client's credentials and the robot id as
    headers, then sends the one AppUpdate frame, then receives, and it stops
    at the first of these calls that fails: of the [k] calls it makes before
    closing, all but the last were answered, and when [k] is less than three
    the last one failed.  It closes the socket last, exactly once, in every
    case.  Every call got the backend's answer for it.  The outcome is the
    exception of the last call that failed (that of [close] before that of
    the call that stopped the session), or [True] when none failed, which
    takes all four calls. *)
Theorem X1_sendCommand_session (env : Env) (self : CloudRobot.t) (body : json) (w : world) :
  let '(r, w') := CloudRobot._sendCommand env self body w in
  exists evs k,
    trace w' = trace w ++ evs /\
    answered_by env (trace w) evs /\
    http_count evs = 0%nat /\
    (1 <= k <= 3)%nat /\
    ws_ops evs
    = take k [WsConnect websocket_url
                (<["RobotId" := CloudRobot.id self]>
                   (CloudClient.credentials (CloudRobot.cloudclient self)));
              WsSend (AppUpdate_frame body);
              WsRecv] ++ [WsClose] /\
    all_answered (take (k - 1) evs) = true /\
    ((k < 3)%nat -> all_answered (take k evs) = false) /\
    r = match last_failure evs with Some e => Raise e | None => Ok true end /\
    (r = Ok true <-> all_answered evs = true) /\
    (r = Ok true -> k = 3%nat).
Proof.
  unfold CloudRobot._sendCommand, AppUpdate_frame. run_monad.
  repeat match goal with
  | |- context [ws_oracle env ?t ?op] =>
      let rs := fresh "rs" in
      let H := fresh "Hrs" in
      remember (ws_oracle env t op) as rs eqn:H in *; destruct rs; run_monad
  end;
  rewrite <- ?app_assoc; eexists;
  first [ exists 3%nat; split; [reflexivity|]; split; [|split; [reflexivity|]; split; [lia|];
          split; [reflexivity|]]
        | exists 2%nat; split; [reflexivity|]; split; [|split; [reflexivity|]; split; [lia|];
          split; [reflexivity|]]
        | exists 1%nat; split; [reflexivity|]; split; [|split; [reflexivity|]; split; [lia|];
          split; [reflexivity|]] ];
  try (cbn [answered_by app]; repeat split; assumption);
  cbn; repeat split; intros; first [reflexivity | discriminate | congruence | lia].
Qed.

(** On a backend that refuses the connection the session is the refused
    [connect] and the [close]: nothing is sent. *)
Example sendCommand_refused_connection :
  ws_ops (trace (snd (CloudRobot.startclean (Demo.ws_down JNull) Demo.robot Demo.fresh)))
  = [WsConnect websocket_url
       (<["RobotId" := CloudRobot.id Demo.robot]>
          (CloudClient.credentials (CloudRobot.cloudclient Demo.robot)));
     WsClose].
Proof. reflexivity. Qed.


(** X2.  What [setpowermode] sets is what [getpowermode] reads back.  On a
    snapshot with a non-null [PowerMode] the command carries the code of the
    mode as [PowerMode]; on one without, but with a non-null [EcoMode],
    MEDIUM goes out as [EcoMode] true and HIGH as [EcoMode] false.  Once the
    robot reports the field as it was sent, the other fields unchanged,
    [getpowermode] returns the mode that was set (codes being distinct). *)
Theorem X2_setpowermode_then_getpowermode (env : Env) (value : PowerMode.t -> Z)
    (self : CloudRobot.t) (w w1 : world) (m : gmap string json) (mode : PowerMode.t) :
  CloudRobot._getinfo env self w = (Ok (JObj m), w1) ->
  (forall m', value m' = value mode -> m' = mode) ->
  Py.is_not_None (default JNull (m !! "PowerMode")) = true \/
  (Py.is_not_None (default JNull (m !! "EcoMode")) = true /\ mode <> PowerMode.LOW) ->
  let sent : string * json :=
    if Py.is_not_None (default JNull (m !! "PowerMode"))
    then ("PowerMode", JInt (value mode))
    else ("EcoMode", JBool (bool_decide (mode = PowerMode.MEDIUM))) in
  CloudRobot.setpowermode env value self mode w
  = (exec CloudRobot._sendCommand env self (JObj {[ sent.1 := sent.2 ]}); ret tt) w1 /\
  forall env' w2 w3,
    CloudRobot._getinfo env' self w2 = (Ok (JObj (<[sent.1 := sent.2]> m)), w3) ->
    CloudRobot.getpowermode env' value self w2 = (Ok mode, w3).
Proof.
  intros H Hinj Hcase.
  rewrite (setpowermode_after_read env value self mode w m w1 H).
  destruct (Py.is_not_None (default JNull (m !! "PowerMode"))) eqn:Hp; cbv zeta.
  - split; [reflexivity|].
    intros env' w2 w3 H'. cbn [fst snd] in H'.
    rewrite (getpowermode_after_read env' value self w2 _ w3 H').
    rewrite lookup_insert_eq. cbn. rewrite (of_value_value value mode Hinj). reflexivity.
  - destruct Hcase as [Hc|[He Hlow]]; [discriminate|]. rewrite He. cbn [fst snd].
    assert (Hread : forall b env' w2 w3,
      CloudRobot._getinfo env' self w2 = (Ok (JObj (<["EcoMode" := JBool b]> m)), w3) ->
      CloudRobot.getpowermode env' value self w2
      = (Ok (if b then PowerMode.MEDIUM else PowerMode.HIGH), w3)).
    { intros b env' w2 w3 H'.
      rewrite (getpowermode_after_read env' value self w2 _ w3 H').
      rewrite lookup_insert_ne by discriminate. rewrite lookup_insert_eq.
      cbv zeta. rewrite Hp. destruct b; reflexivity. }
    destruct mode; [contradiction| |]; (split; [reflexivity|]); apply Hread.
Qed.

(** X2, on a robot that reports [EcoMode] only: HIGH is sent as [EcoMode]
    false, and a backend that reports that reads back as HIGH. *)
Lemma X2_setpowermode_then_getpowermode_witness :
  let env := Demo.steady (JObj Demo.eco_fields) in
  CloudRobot.setpowermode env Demo.codes Demo.robot PowerMode.HIGH Demo.fresh
  = (exec CloudRobot._sendCommand env Demo.robot (JObj {[ "EcoMode" := JBool false ]});
     ret tt) (snd (CloudRobot._getinfo env Demo.robot Demo.fresh))
  /\ fst (CloudRobot.getpowermode
            (Demo.steady (JObj (<["EcoMode" := JBool false]> Demo.eco_fields)))
            Demo.codes Demo.robot Demo.fresh) = Ok PowerMode.HIGH.
Proof.
  destruct (X2_setpowermode_then_getpowermode (Demo.steady (JObj Demo.eco_fields)) Demo.codes
              Demo.robot Demo.fresh _ Demo.eco_fields PowerMode.HIGH eq_refl)
    as (Hset & Hget).
  - intros m'. destruct m'; simpl; congruence.
  - right. split; [reflexivity | discriminate].
  - split; [exact Hset|].
    erewrite (Hget (Demo.steady (JObj (<["EcoMode" := JBool false]> Demo.eco_fields)))
                Demo.fresh); reflexivity.
Defined.


(* ------------------------------------------------------------------ *)
(** ** More on the history *)
(* ------------------------------------------------------------------ *)

(** X3.  Whatever the backend answers and however the call ends,
    [getCleaningSessions] leaves the snapshot cache as it is, makes no
    websocket call, and issues only history requests, at most one per level
    of recursion: the first for the cursor it was given, each later one for
    the non-null [Next] of the answer just before it. *)
Theorem X3_history_follows_the_cursors (env : Env) (self : CloudRobot.t)
    (email password : string) (fuel : nat) (nextptr : json) (w : world) :
  CloudClient.credentials (CloudRobot.cloudclient self) !! "Email" = Some email ->
  CloudClient.credentials (CloudRobot.cloudclient self) !! "AccountPassword" = Some password ->
  exists r evs,
    CloudRobot.getCleaningSessions env self fuel nextptr w
    = (r, {| cache := cache w; trace := trace w ++ evs |}) /\
    (length evs <= fuel)%nat /\
    ws_count evs = 0%nat /\
    cursor_chain self email password nextptr evs.
Proof.
  intros He Hp. revert nextptr w.
  induction fuel as [|fuel IH]; intros nextptr w.
  { exists OutOfFuel, []. rewrite app_nil_r. destruct w. repeat split. cbn. lia. }
  set (rq := CloudRobot.CleanedAreas_request self email password nextptr).
  assert (Hstop : forall rs (r : outcome (list json)),
    exists r' evs,
      (r, {| cache := cache w; trace := trace w ++ [EvHttp rq rs] |})
      = (r', {| cache := cache w; trace := trace w ++ evs |}) /\
      (length evs <= S fuel)%nat /\
      ws_count evs = 0%nat /\ cursor_chain self email password nextptr evs).
  { intros rs r. exists r, [EvHttp rq rs].
    split; [reflexivity|]. split; [cbn; lia|]. split; [reflexivity|].
    exists rs. split; reflexivity. }
  destruct (http_oracle env (trace w) rq) as [r|e] eqn:Ho.
  2:{ cbn [CloudRobot.getCleaningSessions].
      rewrite bind_eq. unfold lift at 1, dict_get at 1. rewrite He.
      rewrite bind_eq. unfold lift at 1, dict_get at 1. rewrite Hp.
      rewrite bind_eq. unfold do_http at 1. fold rq. rewrite Ho. run_monad. apply Hstop. }
  rewrite (getCleaningSessions_answer env self email password He Hp fuel nextptr w r Ho).
  fold rq.
  destruct (Z.eqb (status_code r) 204) eqn:H204; [run_monad; cbn [obind]; apply Hstop|].
  rewrite bind_eq. unfold lift at 1, response_json.
  destruct (content r) as [js|] eqn:Hc; [|run_monad; cbn [obind]; apply Hstop].
  rewrite bind_eq. unfold lift at 1.
  destruct (val raw <- Py.getitem js "Items"; val xs <- Py.iter raw;
            CloudRobot.sessions_of_items xs) as [items| |]; [|(run_monad; cbn [obind]; apply Hstop)..].
  rewrite bind_eq. unfold lift at 1.
  destruct js as [| | | | |m]; try (run_monad; cbn [obind]; apply Hstop).
  cbn [Py.getitem]. destruct (m !! "Next") as [c|] eqn:Hn; [|run_monad; cbn [obind]; apply Hstop].
  destruct (Py.is_not_None c) eqn:Hnn; [|run_monad; cbn [obind]; apply Hstop].
  rewrite !bind_eq. unfold lift at 1. rewrite bind_eq.
  match goal with |- context [CloudRobot.getCleaningSessions env self fuel c ?w1] =>
    destruct (IH c w1) as (r' & evs & -> & Hlen & Hws & Hchain) end.
  cbn [cache trace].
  destruct r' as [more| |]; eexists; exists (EvHttp rq (Answer r) :: evs);
    (split; [rewrite <- app_assoc; reflexivity|]);
    (split; [cbn; lia|]); (split; [exact Hws|]);
    exists (Answer r); (split; [reflexivity|]);
    (destruct evs as [|e0 evs0]; [exact I|]);
    exists c; (split; [|exact Hchain]);
    cbn [next_of_answer]; rewrite H204, Hc, Hn, Hnn; reflexivity.
Qed.

(** X3, on the three-page backend. *)
Lemma X3_history_follows_the_cursors_witness :
  let w' := snd (CloudRobot.getCleaningSessions Demo.three_pages Demo.robot 5 JNull
                   Demo.fresh) in
  cache w' = CachedData.init /\ length (trace w') = 3%nat /\ ws_count (trace w') = 0%nat.
Proof.
  destruct (X3_history_follows_the_cursors Demo.three_pages Demo.robot
              "user@example.org" "c2VjcmV0" 5 JNull Demo.fresh eq_refl eq_refl)
    as (r & evs & Hrun & _ & Hws & _).
  cbv zeta. split; [rewrite Hrun; reflexivity|]. split; [vm_compute; reflexivity|].
  rewrite Hrun. exact Hws.
Defined.


Section HistoryRaises.

Variable env : Env.
Variable self : CloudRobot.t.
Variables email password : string.
Hypothesis credentials_email :
  CloudClient.credentials (CloudRobot.cloudclient self) !! "Email" = Some email.
Hypothesis credentials_password :
  CloudClient.credentials (CloudRobot.cloudclient self) !! "AccountPassword" = Some password.

(** A call that raises without recursing raises at every depth. *)
Lemma getCleaningSessions_raises_at_once n c w e :
  fst (CloudRobot.getCleaningSessions env self 1 c w) = Raise e ->
  fst (CloudRobot.getCleaningSessions env self (S n) c w) = Raise e.
Proof.
  destruct (http_oracle env (trace w) (CloudRobot.CleanedAreas_request self email password c))
    as [r|e'] eqn:Ho.
  2:{ rewrite !(getCleaningSessions_failure env self email password
                  credentials_email credentials_password _ c w e' Ho). auto. }
  rewrite !(getCleaningSessions_answer env self email password
              credentials_email credentials_password _ c w r Ho).
  intros H; revert H.
  destruct (Z.eqb (status_code r) 204); [auto|].
  intros H. rewrite bind_eq in H. rewrite bind_eq. unfold lift at 1 in H. unfold lift at 1.
  unfold response_json in *. revert H.
  destruct (content r) as [js|]; [|auto].
  intros H. rewrite bind_eq in H. rewrite bind_eq. unfold lift at 1 in H. unfold lift at 1.
  revert H.
  destruct (val raw <- Py.getitem js "Items"; val xs <- Py.iter raw;
            CloudRobot.sessions_of_items xs) as [items| |]; [|auto..].
  intros H. rewrite bind_eq in H. rewrite bind_eq. unfold lift at 1 in H. unfold lift at 1.
  revert H.
  destruct (Py.getitem js "Next") as [next| |]; [|auto..].
  destruct (Py.is_not_None next); [|auto].
  intros H. exfalso. rewrite !bind_eq in H. unfold lift at 1 in H. rewrite bind_eq in H.
  cbn [CloudRobot.getCleaningSessions] in H. discriminate H.
Qed.

End HistoryRaises.

(** X4.  The history is all or nothing.  When the backend serves some pages,
    each with a non-null [Next], and the call for the cursor after them
    raises (a transport failure, a body that is no JSON, an entry that
    cannot be converted), [getCleaningSessions] raises that exception: the
    sessions of the pages already fetched are not returned. *)
Theorem X4_history_is_all_or_nothing (env : Env) (self : CloudRobot.t)
    (email password : string) (pages : list (list history_item)) (e : exn)
    (nextptr : json) (w : world) (fuel : nat) :
  CloudClient.credentials (CloudRobot.cloudclient self) !! "Email" = Some email ->
  CloudClient.credentials (CloudRobot.cloudclient self) !! "AccountPassword" = Some password ->
  serves_then env self email password (trace w) nextptr pages
    (fun t c => fst (CloudRobot.getCleaningSessions env self 1 c
                       {| cache := cache w; trace := t |}) = Raise e) ->
  (length pages < fuel)%nat ->
  fst (CloudRobot.getCleaningSessions env self fuel nextptr w) = Raise e.
Proof.
  intros He Hp. revert nextptr w fuel.
  induction pages as [|page rest IH]; intros nextptr w fuel Hs Hfuel.
  - destruct fuel as [|fuel]; [cbn in Hfuel; lia|].
    apply (getCleaningSessions_raises_at_once env self email password He Hp).
    destruct w. exact Hs.
  - destruct Hs as (r & m & next & Ho & Hst & Hc & Hi & Hn & Hnn & Hs).
    destruct fuel as [|fuel]; [cbn in Hfuel; lia|].
    rewrite (getCleaningSessions_follow env self email password fuel nextptr w r m page next
               He Hp Ho Hst Hc Hi Hn Hnn).
    rewrite bind_eq.
    match goal with |- context [CloudRobot.getCleaningSessions env self fuel next ?w1] =>
      pose proof (IH next w1 fuel Hs ltac:(cbn in Hfuel; lia)) as Hrec;
      destruct (CloudRobot.getCleaningSessions env self fuel next w1) as [[more| |] w2] end;
      cbn [fst] in *; congruence.
Qed.

(** X4, on a backend that serves twelve entries and then times out. *)
Lemma X4_history_is_all_or_nothing_witness :
  fst (CloudRobot.getCleaningSessions More.flaky Demo.robot 5 JNull Demo.fresh)
  = Raise (TransportError "timed out").
Proof.
  apply (X4_history_is_all_or_nothing More.flaky Demo.robot "user@example.org" "c2VjcmV0"
           [Demo.page3]); [reflexivity | reflexivity | | cbn; lia].
  do 3 eexists. split; [reflexivity|]. split; [discriminate|].
  split; [reflexivity|]. split; [reflexivity|]. split; [reflexivity|].
  split; [discriminate|]. reflexivity.
Defined.

(** The conversion of one entry gives a session of the expected shape. *)
Lemma session_of_item_shape x d :
  CloudRobot.session_of_item x = Ok d -> session_shape d.
Proof.
  unfold CloudRobot.session_of_item.
  destruct (Py.getitem x "TimeStamp") as [ts| |]; cbn [obind]; try discriminate.
  destruct (Py.getitem x "CleanedArea") as [area| |]; cbn [obind]; try discriminate.
  destruct (Py.getitem x "CleaningSession") as [cs| |]; cbn [obind]; try discriminate.
  destruct (Py.getitem cs "MapImageUrl") as [url| |]; cbn [obind]; try discriminate.
  destruct (Py.getitem cs "PersistentMapId") as [pm| |];
    [|destruct (Py.truthy url); [destruct (Py.str_add _ url)|]; discriminate..].
  destruct (Py.getitem cs "Completion") as [co| |];
    [|destruct (Py.truthy url); [destruct (Py.str_add _ url)|]; discriminate..].
  destruct (Py.getitem cs "RobotUserError") as [ue| |];
    [|destruct (Py.truthy url); [destruct (Py.str_add _ url)|]; discriminate..].
  destruct (Py.getitem cs "RobotInternalError") as [ie| |];
    [|destruct (Py.truthy url); [destruct (Py.str_add _ url)|]; discriminate..].
  assert (Hdom : forall image : json,
    dom ({[ "timestamp" := ts; "cleaned_area" := area; "image" := image; "map" := pm;
            "status" := co; "usererror" := ue; "internalerror" := ie ]} : gmap string json)
    = session_keys).
  { intros image. unfold session_keys. rewrite !dom_insert_L, dom_singleton_L.
    set_solver. }
  destruct (Py.truthy url) eqn:Ht.
  - destruct url as [| | |u| |]; cbn [Py.str_add obind]; try discriminate.
    intros [= <-]. eexists. split; [reflexivity|]. split; [apply Hdom|].
    right. exists u. split; [|reflexivity].
    intros ->. discriminate Ht.
  - cbn [obind]. intros [= <-]. eexists. split; [reflexivity|]. split; [apply Hdom|].
    left. reflexivity.
Qed.

(** X5.  Whatever JSON the page holds, when the conversion of its items
    succeeds, the result has one session for each item whose
    [CleaningSession] is not null, and every session is a dict with exactly
    the keys timestamp, cleaned_area, image, map, status, usererror and
    internalerror, whose image is [None] or the image prefix followed by a
    non-empty name. *)
Theorem X5_sessions_have_the_seven_keys (xs ds : list json) :
  CloudRobot.sessions_of_items xs = Ok ds ->
  Forall session_shape ds /\
  length ds = length (List.filter has_session xs).
Proof.
  revert ds. induction xs as [|x xs IH]; intros ds.
  - intros [= <-]. split; [constructor | reflexivity].
  - cbn [CloudRobot.sessions_of_items List.filter]. unfold has_session at 1.
    destruct (Py.getitem x "CleaningSession") as [cs| |]; cbn [obind]; try discriminate.
    destruct (Py.is_not_None cs).
    + destruct (CloudRobot.session_of_item x) as [d| |] eqn:Hd; cbn [obind];
        try discriminate.
      destruct (CloudRobot.sessions_of_items xs) as [ds'| |]; cbn [obind];
        try discriminate.
      intros [= <-]. destruct (IH ds' eq_refl) as [Hall Hlen].
      split; [constructor; [exact (session_of_item_shape x d Hd) | exact Hall]|].
      cbn [length]. rewrite Hlen. reflexivity.
    + intros H. exact (IH ds H).
Qed.

(** X5, on a page of two entries and a placeholder. *)
Lemma X5_sessions_have_the_seven_keys_witness :
  exists ds,
    CloudRobot.sessions_of_items
      (item_json <$> [Demo.entry 1; Demo.placeholder 2; Demo.entry 3]) = Ok ds /\
    Forall session_shape ds /\ length ds = 2%nat.
Proof.
  destruct (CloudRobot.sessions_of_items
              (item_json <$> [Demo.entry 1; Demo.placeholder 2; Demo.entry 3]))
    as [ds| |] eqn:H; [|discriminate H..].
  exists ds. split; [reflexivity|].
  destruct (X5_sessions_have_the_seven_keys _ ds H) as [Hall Hlen].
  split; [exact Hall|]. rewrite Hlen. reflexivity.
Defined.

(** An entry whose test raises stops the conversion of the page. *)
Lemma sessions_of_items_raises before x after ds e :
  CloudRobot.sessions_of_items before = Ok ds ->
  Py.getitem x "CleaningSession" = Raise e ->
  CloudRobot.sessions_of_items (before ++ x :: after) = Raise e.
Proof.
  intros Hb Hx. revert ds Hb. induction before as [|y before IH]; intros ds.
  - intros _. cbn [app CloudRobot.sessions_of_items]. rewrite Hx. reflexivity.
  - cbn [app CloudRobot.sessions_of_items].
    destruct (Py.getitem y "CleaningSession") as [cs| |]; cbn [obind]; try discriminate.
    destruct (Py.is_not_None cs).
    + destruct (CloudRobot.session_of_item y) as [d| |]; cbn [obind]; try discriminate.
      destruct (CloudRobot.sessions_of_items before) as [ds'| |]; cbn [obind];
        try discriminate.
      intros _. rewrite (IH ds' eq_refl). reflexivity.
    + intros Hb. exact (IH ds Hb).
Qed.

(** X6.  An entry is dropped only when its [CleaningSession] is null.  An
    entry that is a dict without the key stops the conversion with
    [KeyError], and an entry that is no dict stops it with [TypeError],
    though the entries before it were fine; nothing of the page is returned. *)
Theorem X6_entry_without_session_key_raises (before after : list json) (x : json)
    (ds : list json) :
  CloudRobot.sessions_of_items before = Ok ds ->
  match x with
  | JObj m =>
      m !! "CleaningSession" = None ->
      CloudRobot.sessions_of_items (before ++ x :: after)
      = Raise (KeyError "CleaningSession")
  | _ => CloudRobot.sessions_of_items (before ++ x :: after) = Raise TypeError
  end.
Proof.
  intros Hb.
  destruct x as [| | | | |m];
    try (apply (sessions_of_items_raises before _ after ds TypeError Hb); reflexivity).
  intros Hm. apply (sessions_of_items_raises before _ after ds _ Hb).
  cbn [Py.getitem]. rewrite Hm. reflexivity.
Qed.

(** X6, after one good entry: an entry with no [CleaningSession] key, and
    an entry that is a number. *)
Lemma X6_entry_without_session_key_raises_witness :
  CloudRobot.sessions_of_items
    ([item_json (Demo.entry 1)] ++ JObj {[ "TimeStamp" := JInt 2 ]} :: [item_json (Demo.entry 3)])
  = Raise (KeyError "CleaningSession") /\
  CloudRobot.sessions_of_items ([item_json (Demo.entry 1)] ++ JInt 7 :: [])
  = Raise TypeError.
Proof.
  assert (Hb : CloudRobot.sessions_of_items [item_json (Demo.entry 1)]
               = Ok (page_sessions [Demo.entry 1])) by reflexivity.
  split.
  - exact (X6_entry_without_session_key_raises [item_json (Demo.entry 1)]
             [item_json (Demo.entry 3)] (JObj {[ "TimeStamp" := JInt 2 ]}) _ Hb eq_refl).
  - exact (X6_entry_without_session_key_raises [item_json (Demo.entry 1)] [] (JInt 7) _ Hb).
Defined.


(* ------------------------------------------------------------------ *)
(** ** More on maps *)
(* ------------------------------------------------------------------ *)

(** X7.  [getImage] and [getImage2] build the address from the map's [Id]
    before anything is sent.  When the listing gave an [Id] that is no
    string, both raise [TypeError] and no request is made.  When it is a
    string, [getImage] makes exactly one request, a GET to the address of
    that map, whatever the answer, and leaves the snapshot cache alone. *)
Theorem X7_getImage_needs_a_string_id (env : Env) (map : CloudMap.t) (w : world) :
  match CloudMap.id map with
  | JStr mid =>
      exists r rs,
        CloudMap.getImage env map w
        = (r, {| cache := cache w;
                 trace := trace w ++ [EvHttp (Image_request map mid) rs] |})
  | _ =>
      CloudMap.getImage env map w = (Raise TypeError, w) /\
      CloudMap.getImage2 env map w = (Raise TypeError, w)
  end.
Proof.
  unfold CloudMap.getImage, CloudMap.getImage2.
  destruct (CloudMap.id map) as [| | |mid| |]; try (split; reflexivity).
  rewrite bind_eq. unfold lift at 1. cbn [Py.str_add]. rewrite bind_eq.
  unfold do_http at 1.
  change (http_oracle env (trace w) _)
    with (http_oracle env (trace w) (Image_request map mid)).
  destruct (http_oracle env (trace w) (Image_request map mid)) as [a|e]; cbn [of_reply].
  - rewrite bind_eq. unfold lift at 1.
    destruct (response_json a); do 2 eexists; reflexivity.
  - do 2 eexists; reflexivity.
Qed.

(** X8.  A map copies its [Id], [InteractiveId] and [Name] from its listing
    entry, and has one zone for each element of the entry's [Zones], in
    order, each with the [Id], [Name], [ZoneType] and [RoomCategory] of that
    element. *)
Theorem X8_map_and_zones_copy_the_listing (self : CloudRobot.t) (x : json)
    (map : CloudMap.t) :
  CloudMap.init self x = Ok map ->
  Py.getitem x "Id" = Ok (CloudMap.id map) /\
  Py.getitem x "InteractiveId" = Ok (CloudMap.interactiveid map) /\
  Py.getitem x "Name" = Ok (CloudMap.name map) /\
  exists raw zs,
    Py.getitem x "Zones" = Ok raw /\ Py.iter raw = Ok zs /\
    Forall2 (fun z zone =>
               Py.getitem z "Id" = Ok (CloudZone.id zone) /\
               Py.getitem z "Name" = Ok (CloudZone.name zone) /\
               Py.getitem z "ZoneType" = Ok (CloudZone.type zone) /\
               Py.getitem z "RoomCategory" = Ok (CloudZone.roomcategory zone))
            zs (CloudMap.zones map).
Proof.
  unfold CloudMap.init.
  destruct (Py.getitem x "Id") as [i| |]; cbn [obind]; try discriminate.
  destruct (Py.getitem x "InteractiveId") as [ii| |]; cbn [obind]; try discriminate.
  destruct (Py.getitem x "Name") as [n| |]; cbn [obind]; try discriminate.
  destruct (Py.getitem x "Zones") as [raw| |]; cbn [obind]; try discriminate.
  destruct (Py.iter raw) as [zs| |] eqn:Hi; cbn [obind]; try discriminate.
  destruct (map_outcome CloudZone.init zs) as [zones| |] eqn:Hz; cbn [obind]; try discriminate.
  intros [= <-]. cbn. do 3 (split; [reflexivity|]). exists raw, zs.
  split; [reflexivity|]. split; [exact Hi|].
  eapply Forall2_impl; [exact (map_outcome_Forall2 _ _ _ Hz)|].
  intros z zone. unfold CloudZone.init.
  destruct (Py.getitem z "Id") as [zi| |]; cbn [obind]; try discriminate.
  destruct (Py.getitem z "Name") as [zn| |]; cbn [obind]; try discriminate.
  destruct (Py.getitem z "ZoneType") as [zt| |]; cbn [obind]; try discriminate.
  destruct (Py.getitem z "RoomCategory") as [zc| |]; cbn [obind]; try discriminate.
  intros [= <-]. cbn. auto.
Qed.

(** X8, on the map of the example listing. *)
Lemma X8_map_and_zones_copy_the_listing_witness :
  exists map,
    CloudMap.init Demo.robot Demo.map_entry = Ok map /\
    CloudMap.name map = JStr "Ground floor" /\
    CloudZone.name <$> CloudMap.zones map = [JStr "Kitchen"; JStr "Hall"].
Proof.
  destruct (CloudMap.init Demo.robot Demo.map_entry) as [map| |] eqn:H;
    [|discriminate H..].
  exists map. split; [reflexivity|].
  destruct (X8_map_and_zones_copy_the_listing Demo.robot Demo.map_entry map H)
    as (_ & _ & Hname & _).
  split; [injection Hname as <-; reflexivity|].
  vm_compute in H. injection H as <-. reflexivity.
Defined.

(** The first element that cannot be converted decides. *)
Lemma map_outcome_raises {A B} (f : A -> outcome B) before x after ys e :
  map_outcome f before = Ok ys -> f x = Raise e ->
  map_outcome f (before ++ x :: after) = Raise e.
Proof.
  intros Hb Hx. revert ys Hb. induction before as [|y before IH]; intros ys.
  - intros _. cbn [app map_outcome]. rewrite Hx. reflexivity.
  - cbn [app map_outcome]. destruct (f y); cbn [obind]; try discriminate.
    destruct (map_outcome f before) as [ys'| |]; cbn [obind]; try discriminate.
    intros _. rewrite (IH ys' eq_refl). reflexivity.
Qed.

(** X9.  The listing is all or nothing.  When an entry of the listing is a
    dict that lacks one of [Id], [InteractiveId], [Name] and [Zones],
    [getMaps] raises [KeyError] for the first of these keys that is missing
    and returns no map, though the entries before it were fine. *)
Theorem X9_listing_entry_without_a_key (env : Env) (self : CloudRobot.t) (w : world)
    (r : http_response) (before after : list json) (m : gmap string json)
    (maps : list CloudMap.t) (key : string) :
  http_oracle env (trace w) (Maps_request self) = Answer r ->
  content r = Some (JArr (before ++ JObj m :: after)) ->
  map_outcome (CloudMap.init self) before = Ok maps ->
  List.find (fun k => bool_decide (m !! k = None)) ["Id"; "InteractiveId"; "Name"; "Zones"]
    = Some key ->
  fst (getMaps env self w) = Raise (KeyError key).
Proof.
  intros Ho Hc Hb Hkey.
  unfold getMaps. rewrite bind_eq. unfold do_http at 1.
  change (http_oracle env (trace w) _) with (http_oracle env (trace w) (Maps_request self)).
  rewrite Ho. cbn [of_reply]. unfold lift, response_json. rewrite Hc.
  cbn [obind Py.iter fst].
  apply (map_outcome_raises _ before _ after maps _ Hb).
  unfold CloudMap.init. cbn [Py.getitem List.find] in *.
  repeat match type of Hkey with
  | (if bool_decide (?o = None) then _ else _) = _ =>
      destruct o eqn:?; [rewrite bool_decide_eq_false_2 in Hkey by discriminate
                        |rewrite bool_decide_eq_true_2 in Hkey by reflexivity;
                         injection Hkey as <-; reflexivity];
      cbn [obind]
  end.
  discriminate Hkey.
Qed.

(** X9, on a listing whose second entry has no [Zones]. *)
Lemma X9_listing_entry_without_a_key_witness :
  fst (getMaps (Demo.steady (JArr ([Demo.map_entry] ++ JObj More.attic :: [])))
         Demo.robot Demo.fresh)
  = Raise (KeyError "Zones").
Proof.
  destruct (map_outcome (CloudMap.init Demo.robot) [Demo.map_entry]) as [maps| |] eqn:Hb;
    [|discriminate Hb..].
  apply (X9_listing_entry_without_a_key
           (Demo.steady (JArr ([Demo.map_entry] ++ JObj More.attic :: [])))
           Demo.robot Demo.fresh
           {| status_code := 200;
              content := Some (JArr ([Demo.map_entry] ++ JObj More.attic :: [])) |}
           [Demo.map_entry] [] More.attic maps "Zones");
    [reflexivity | reflexivity | exact Hb | reflexivity].
Defined.


(* ------------------------------------------------------------------ *)
(** ** The command line *)
(* ------------------------------------------------------------------ *)

Lemma partition_spec sep s :
  match Main.partition sep s with
  | (head, None) => (sep ∉ head) /\ s = head
  | (head, Some tail) => (sep ∉ head) /\ s = head ++ sep :: tail
  end.
Proof.
  induction s as [|c s IH]; cbn [Main.partition].
  - split; [apply not_elem_of_nil | reflexivity].
  - destruct (Z.eqb_spec c sep) as [->|Hne].
    + split; [apply not_elem_of_nil | reflexivity].
    + destruct (Main.partition sep s) as [head [tail|]]; destruct IH as [Hnot ->];
        (split; [rewrite not_elem_of_cons; auto | reflexivity]).
Qed.

(** X10.  The [--credentials] argument is cut at its colons.  With no
    colon there is no password: the lookup of [parts[1]] fails.  Otherwise
    the email is what stands before the first colon and the password what
    stands between the first colon and the second, if there is a second:
    neither holds a colon, and a password with a colon in it is cut short at
    that colon. *)
Theorem X10_credentials_are_cut_at_colons (s : list Z) :
  match Main.parse_credentials s with
  | None => Main.colon ∉ s
  | Some (email, password) =>
      (Main.colon ∉ email) /\ (Main.colon ∉ password) /\
      (s = email ++ Main.colon :: password \/
       exists rest, s = email ++ Main.colon :: password ++ Main.colon :: rest)
  end.
Proof.
  unfold Main.parse_credentials. cbn [Main.split].
  pose proof (partition_spec Main.colon s) as H1.
  destruct (Main.partition Main.colon s) as [email [tail|]].
  - destruct H1 as [He ->].
    pose proof (partition_spec Main.colon tail) as H2.
    destruct (Main.partition Main.colon tail) as [password [rest|]];
      destruct H2 as [Hp ->]; cbn; (split; [exact He|]); (split; [exact Hp|]); eauto.
  - destruct H1 as [He ->]. cbn. exact He.
Qed.

(** The examples of the three cases. *)
Example parse_credentials_examples :
  Main.parse_credentials (codepoints "user@example.org:secret")
  = Some (codepoints "user@example.org", codepoints "secret") /\
  Main.parse_credentials (codepoints "user@example.org:se:cr:et")
  = Some (codepoints "user@example.org", codepoints "se") /\
  Main.parse_credentials (codepoints "user@example.org") = None.
Proof. repeat split. Qed.

Section HistoryLoop.

Variable draw2shade : json -> reply json.

(** One turn in table mode leaves the session or replaces its image, and
    moves the counter by at most one, never past ten. *)
Lemma render_session_spec i sess sess' i' :
  Main.render_session draw2shade i sess = Ok (sess', i') ->
  (exists m v, sess = JObj m /\ sess' = JObj (<["image" := v]> m)) /\
  (i <= i' <= Nat.max i 10)%nat.
Proof.
  unfold Main.render_session.
  destruct (Nat.ltb_spec i 10) as [Hlt|Hge].
  - destruct (Py.getitem sess "image") as [image| |]; cbn [obind]; try discriminate.
    destruct (of_reply (draw2shade image)) as [drawn| |]; cbn [obind]; try discriminate.
    destruct drawn as [| | |s| |]; cbn [obind]; try discriminate.
    destruct sess as [| | | | |m]; cbn [Main.setitem obind]; try discriminate.
    intros [= <- <-]. split; [eauto|lia].
  - destruct sess as [| | | | |m]; cbn [Main.setitem obind]; try discriminate.
    intros [= <- <-]. split; [eauto|lia].
Qed.

(** X11.  The loop of the [history] subcommand keeps every session, in
    order: the output has the length of the input, and each session comes
    out as it went in or with its ["image"] replaced, no other key touched.
    The counter of rendered images never passes ten.  With JSON output the
    sessions come out unchanged. *)
Theorem X11_history_loop_keeps_the_sessions (table : bool) (i : nat)
    (sessions : list json) :
  let '(output, n) := Main.history_loop draw2shade table i sessions in
  length output = length sessions /\
  Forall2 (fun sess out =>
             out = sess \/
             exists m v, sess = JObj m /\ out = JObj (<["image" := v]> m))
          sessions output /\
  (i <= n <= Nat.max i 10)%nat /\
  (table = false -> output = sessions /\ n = i).
Proof.
  revert i. induction sessions as [|sess rest IH]; intros i; cbn [Main.history_loop].
  - split; [reflexivity|]. split; [constructor|]. split; [lia|]. auto.
  - destruct table.
    + destruct (Main.render_session draw2shade i sess) as [[sess' i']| |] eqn:Hr.
      * destruct (render_session_spec i sess sess' i' Hr) as [Hs Hi].
        specialize (IH i').
        destruct (Main.history_loop draw2shade true i' rest) as [output n].
        destruct IH as (Hlen & Hall & Hn & _).
        split; [cbn; lia|]. split; [constructor; auto|]. split; [lia|]. discriminate.
      * specialize (IH i).
        destruct (Main.history_loop draw2shade true i rest) as [output n].
        destruct IH as (Hlen & Hall & Hn & _).
        split; [cbn; lia|]. split; [constructor; auto|]. split; [lia|]. discriminate.
      * specialize (IH i).
        destruct (Main.history_loop draw2shade true i rest) as [output n].
        destruct IH as (Hlen & Hall & Hn & _).
        split; [cbn; lia|]. split; [constructor; auto|]. split; [lia|]. discriminate.
    + specialize (IH i).
      destruct (Main.history_loop draw2shade false i rest) as [output n].
      destruct IH as (Hlen & Hall & Hn & Hsame).
      destruct (Hsame eq_refl) as [-> ->].
      split; [reflexivity|]. split; [constructor; auto|]. split; [lia|]. auto.
Qed.

(** With a renderer that always gives a string, on sessions that are dicts
    with an image, the loop from counter [i] renders while the counter is
    below ten and marks the rest. *)
Lemma history_loop_renders (f : json -> string) (ms : list (gmap string json)) :
  (forall x, draw2shade x = Answer (JStr (f x))) ->
  Forall (fun m => is_Some (m !! "image")) ms ->
  forall i k m,
  ms !! k = Some m ->
  fst (Main.history_loop draw2shade true i (JObj <$> ms)) !! k
  = Some (JObj (<["image" := if (i + k <? 10)%nat
                            then JStr (f (default JNull (m !! "image")) +:+ "_")
                            else JStr "(not shown)"]> m)).
Proof.
  intros Hdraw Hall. induction Hall as [|m0 ms [img Himg] Hall IH]; intros i k m Hk.
  - discriminate Hk.
  - rewrite fmap_cons. cbn [Main.history_loop].
    assert (Hr : Main.render_session draw2shade i (JObj m0)
                 = Ok (JObj (<["image" := if (i <? 10)%nat
                                          then JStr (f img +:+ "_")
                                          else JStr "(not shown)"]> m0),
                       if (i <? 10)%nat then S i else i)).
    { unfold Main.render_session. destruct (i <? 10)%nat; [|reflexivity].
      cbn [Py.getitem]. rewrite Himg. cbn [obind]. rewrite Hdraw. reflexivity. }
    rewrite Hr.
    destruct (Main.history_loop draw2shade true (if (i <? 10)%nat then S i else i)
                (JObj <$> ms)) as [output n] eqn:Hloop.
    cbn [fst]. destruct k as [|k].
    + injection Hk as <-. cbn. rewrite Himg, Nat.add_0_r. reflexivity.
    + change ((?x :: output) !! S k) with (output !! k).
      change ((m0 :: ms) !! S k) with (ms !! k) in Hk.
      specialize (IH (if (i <? 10)%nat then S i else i) k m Hk).
      rewrite Hloop in IH. cbn [fst] in IH. rewrite IH.
      destruct (Nat.ltb_spec i 10) as [Hlt|Hge].
      * replace (S i + k)%nat with (i + S k)%nat by lia. reflexivity.
      * replace (i + k <? 10)%nat with false by (symmetry; apply Nat.ltb_ge; lia).
        replace (i + S k <? 10)%nat with false by (symmetry; apply Nat.ltb_ge; lia).
        reflexivity.
Qed.

(** X12.  With table output and a renderer that gives a string for every
    image, the first ten sessions of the history get the rendering followed
    by an underscore as their image, and every later one gets the text
    "(not shown)"; the other keys of a session stay as they were. *)
Theorem X12_first_ten_sessions_are_rendered (f : json -> string)
    (ms : list (gmap string json)) (k : nat) (m : gmap string json) :
  (forall x, draw2shade x = Answer (JStr (f x))) ->
  Forall (fun m => is_Some (m !! "image")) ms ->
  ms !! k = Some m ->
  Main.history_output draw2shade true (JObj <$> ms) !! k
  = Some (JObj (<["image" := if (k <? 10)%nat
                            then JStr (f (default JNull (m !! "image")) +:+ "_")
                            else JStr "(not shown)"]> m)).
Proof.
  intros Hdraw Hall Hk. unfold Main.history_output.
  exact (history_loop_renders f ms Hdraw Hall 0 k m Hk).
Qed.

End HistoryLoop.


(** X12, on eleven sessions: the first is rendered, the eleventh is not. *)
Lemma X12_first_ten_sessions_are_rendered_witness :
  let output := Main.history_output (fun _ => Answer (JStr "##")) true
                  (JObj <$> replicate 11 {[ "image" := JStr "a.png"; "map" := JInt 1 ]}) in
  output !! 0%nat = Some (JObj {[ "image" := JStr "##_"; "map" := JInt 1 ]}) /\
  output !! 10%nat = Some (JObj {[ "image" := JStr "(not shown)"; "map" := JInt 1 ]}).
Proof.
  assert (Hall : Forall (fun m : gmap string json => is_Some (m !! "image"))
                   (replicate 11 {[ "image" := JStr "a.png"; "map" := JInt 1 ]})).
  { apply Forall_replicate. eexists. reflexivity. }
  split.
  - rewrite (X12_first_ten_sessions_are_rendered (fun _ => Answer (JStr "##"))
               (fun _ => "##") _ 0 {[ "image" := JStr "a.png"; "map" := JInt 1 ]}
               (fun _ => eq_refl) Hall eq_refl).
    reflexivity.
  - rewrite (X12_first_ten_sessions_are_rendered (fun _ => Answer (JStr "##"))
               (fun _ => "##") _ 10 {[ "image" := JStr "a.png"; "map" := JInt 1 ]}
               (fun _ => eq_refl) Hall eq_refl).
    reflexivity.
Defined.

(** A session whose rendering fails keeps its image and does not use up
    one of the ten. *)
Example history_loop_failed_rendering :
  Main.history_loop (fun x => match x with
                              | JStr "bad.png" => Failure (Exception "no such image")
                              | _ => Answer (JStr "##")
                              end) true 9
    [JObj {[ "image" := JStr "bad.png" ]}; JObj {[ "image" := JStr "a.png" ]};
     JObj {[ "image" := JStr "b.png" ]}]
  = ([JObj {[ "image" := JStr "bad.png" ]}; JObj {[ "image" := JStr "##_" ]};
      JObj {[ "image" := JStr "(not shown)" ]}], 10%nat).
Proof. reflexivity. Qed.

Section MapsCommand.

Variable env : Env.
Variable image_json_2_ascii : json -> reply json.

(** [getImage] leaves the cache alone, makes no websocket call and at most
    one request, and exactly one when it returns a payload. *)
Lemma getImage_effect map w :
  let '(r, w') := CloudMap.getImage env map w in
  cache w' = cache w /\
  exists evs, trace w' = trace w ++ evs /\ ws_count evs = 0%nat /\
              (http_count evs <= 1)%nat /\
              ((exists js, r = Ok js) -> http_count evs = 1%nat).
Proof.
  unfold CloudMap.getImage. rewrite bind_eq. unfold lift at 1.
  destruct (Py.str_add _ (CloudMap.id map)) as [url| |].
  - rewrite bind_eq. unfold do_http at 1.
    match goal with |- context [http_oracle env ?t ?q] =>
      destruct (http_oracle env t q) as [a|e] end; cbn [of_reply].
    + rewrite bind_eq. unfold lift at 1.
      destruct (response_json a); cbn [cache trace];
        (split; [reflexivity|]); eexists; (split; [reflexivity|]);
        (split; [reflexivity|]); (split; [cbn; lia|]); reflexivity.
    + split; [reflexivity|]. eexists. split; [reflexivity|].
      split; [reflexivity|]. split; [cbn; lia|]. reflexivity.
  - split; [reflexivity|]. exists []. rewrite app_nil_r.
    split; [reflexivity|]. split; [reflexivity|]. split; [cbn; lia|].
    intros [js H]. discriminate H.
  - split; [reflexivity|]. exists []. rewrite app_nil_r.
    split; [reflexivity|]. split; [reflexivity|]. split; [cbn; lia|].
    intros [js H]. discriminate H.
Qed.

(** One row costs what its image costs. *)
Lemma map_row_effect table map w :
  let '(r, w') := Main.map_row env image_json_2_ascii table map w in
  cache w' = cache w /\
  exists evs, trace w' = trace w ++ evs /\ ws_count evs = 0%nat /\
              (http_count evs <= 1)%nat /\
              ((exists row, r = Ok row) -> http_count evs = 1%nat).
Proof.
  unfold Main.map_row. rewrite bind_eq.
  pose proof (getImage_effect map w) as H.
  destruct (CloudMap.getImage env map w) as [[js| |] w1];
    destruct H as (Hc & evs & Ht & Hws & Hle & Hone).
  - rewrite bind_eq.
    assert (Hone' : http_count evs = 1%nat) by (apply Hone; eauto).
    match goal with |- context [?c w1] =>
      assert (Hpure : exists r', c w1 = (r', w1))
        by (destruct (Py.truthy js); [destruct table|]; eexists; reflexivity);
      destruct Hpure as [r' ->] end.
    destruct r'; cbn [cache trace ret];
      (split; [exact Hc | exists evs; repeat split; auto]).
  - split; [exact Hc|]. exists evs. repeat split; auto; intros [row H]; discriminate H.
  - split; [exact Hc|]. exists evs. repeat split; auto; intros [row H]; discriminate H.
Qed.

Lemma map_rows_effect table maps :
  forall w,
  let '(r, w') := Main.map_rows env image_json_2_ascii table maps w in
  cache w' = cache w /\
  exists evs, trace w' = trace w ++ evs /\ ws_count evs = 0%nat /\
              (http_count evs <= length maps)%nat /\
              (forall rows, r = Ok rows ->
                 length rows = length maps /\ http_count evs = length maps).
Proof.
  induction maps as [|map rest IH]; intros w; cbn [Main.map_rows].
  - split; [reflexivity|]. exists []. rewrite app_nil_r. cbn.
    split; [reflexivity|]. split; [reflexivity|]. split; [lia|].
    intros rows [= <-]. split; reflexivity.
  - rewrite bind_eq.
    pose proof (map_row_effect table map w) as H.
    destruct (Main.map_row env image_json_2_ascii table map w) as [[row| |] w1];
      destruct H as (Hc & evs & Ht & Hws & Hle & Hone).
    + rewrite bind_eq. specialize (IH w1).
      destruct (Main.map_rows env image_json_2_ascii table rest w1) as [[rows| |] w2];
        destruct IH as (Hc2 & evs2 & Ht2 & Hws2 & Hle2 & Hall);
        cbn [cache trace ret];
        (split; [congruence|]); exists (evs ++ evs2);
        (split; [rewrite Ht2, Ht, app_assoc; reflexivity|]);
        (split; [rewrite ws_count_app; lia|]);
        (split; [rewrite http_count_app; cbn [length]; lia|]).
      * unfold ret. intros rows' [= <-]. destruct (Hall rows eq_refl) as [Hl Hh].
        rewrite http_count_app, Hh, (Hone ltac:(eauto)). cbn [length]. lia.
      * intros rows' H; discriminate H.
      * intros rows' H; discriminate H.
    + split; [exact Hc|]. exists evs. split; [exact Ht|]. split; [exact Hws|].
      split; [cbn [length]; lia|]. intros rows H; discriminate H.
    + split; [exact Hc|]. exists evs. split; [exact Ht|]. split; [exact Hws|].
      split; [cbn [length]; lia|]. intros rows H; discriminate H.
Qed.

(** The listing is one request, whatever comes back. *)
Lemma getMaps_effect rc w :
  exists rs,
    snd (getMaps env rc w)
    = {| cache := cache w; trace := trace w ++ [EvHttp (Maps_request rc) rs] |}.
Proof.
  unfold getMaps. rewrite bind_eq. unfold do_http at 1.
  change (http_oracle env (trace w) _) with (http_oracle env (trace w) (Maps_request rc)).
  destruct (http_oracle env (trace w) (Maps_request rc)) as [a|e]; cbn [of_reply].
  - eexists. unfold lift. reflexivity.
  - eexists. reflexivity.
Qed.

End MapsCommand.

(** X13.  The [maps] subcommand costs one request for the listing and at
    most one per listed map after it, never a websocket call, and leaves the
    snapshot cache alone; when it succeeds it has made exactly one request
    per map besides the listing and gives one row per map. *)
Theorem X13_maps_command_requests (env : Env) (image_json_2_ascii : json -> reply json)
    (table : bool) (rc : CloudRobot.t) (w : world) :
  let '(r, w') := Main.maps_command env image_json_2_ascii table rc w in
  cache w' = cache w /\
  ws_count (trace w') = ws_count (trace w) /\
  (forall maps, fst (getMaps env rc w) = Ok maps ->
     (http_count (trace w') <= http_count (trace w) + 1 + length maps)%nat /\
     forall rows, r = Ok rows ->
       length rows = length maps /\
       http_count (trace w') = (http_count (trace w) + 1 + length maps)%nat).
Proof.
  unfold Main.maps_command. rewrite bind_eq.
  destruct (getMaps_effect env rc w) as [rs Hw1].
  destruct (getMaps env rc w) as [[maps| |] w1]; cbn [snd fst] in *; subst w1.
  - pose proof (map_rows_effect env image_json_2_ascii table maps
                  {| cache := cache w;
                     trace := trace w ++ [EvHttp (Maps_request rc) rs] |}) as H.
    destruct (Main.map_rows env image_json_2_ascii table maps _) as [r w'].
    destruct H as (Hc & evs & Ht & Hws & Hle & Hall). cbn [cache trace] in *.
    split; [exact Hc|]. rewrite Ht, !ws_count_app, !http_count_app, Hws.
    split; [cbn; lia|].
    intros maps' [= <-]. change (http_count [EvHttp (Maps_request rc) rs]) with 1%nat.
    split; [lia|]. intros rows Hr. destruct (Hall rows Hr) as [Hl Hh]. split; [exact Hl|lia].
  - cbn [cache trace]. split; [reflexivity|]. rewrite ws_count_app.
    split; [cbn; lia|]. intros maps H; discriminate H.
  - cbn [cache trace]. split; [reflexivity|]. rewrite ws_count_app.
    split; [cbn; lia|]. intros maps H; discriminate H.
Qed.

(** The example backend: one map, two requests, one row with the image as
    the backend sent it. *)
Example maps_command_atlas :
  let '(r, w') := Main.maps_command Demo.atlas (fun js => Answer js) false Demo.robot
                    Demo.fresh in
  http_count (trace w') = 2%nat /\
  exists row, r = Ok [JObj row] /\
    row !! "image" = Some (JStr "iVBORw0KGgoAAAANSUhEUgAAAAEAAAABCAYAAAAfFcSJAAAADUlEQVR42mNk") /\
    row !! "zones" = Some (JArr [JStr "Kitchen"; JStr "Hall"]).
Proof. vm_compute. split; [reflexivity|]. eexists. repeat split. Qed.


(* ------------------------------------------------------------------ *)
(** ** More on power modes and the client *)
(* ------------------------------------------------------------------ *)

(** The enum's lookup by value finds a member with that code, or fails
    when there is none. *)
Lemma of_value_spec (value : PowerMode.t -> Z) (v : Z) :
  (exists mode, PowerMode.of_value value v = Ok mode /\ value mode = v) \/
  (PowerMode.of_value value v = Raise ValueError /\ forall mode, value mode <> v).
Proof.
  unfold PowerMode.of_value.
  destruct (List.find _ PowerMode.members) as [mode|] eqn:Hf.
  - left. exists mode. split; [reflexivity|].
    apply find_some in Hf as [_ Hv]. apply Z.eqb_eq. exact Hv.
  - right. split; [reflexivity|]. intros mode Hv.
    pose proof (find_none _ _ Hf mode) as Hnone. cbn beta in Hnone.
    rewrite Hv, Z.eqb_refl in Hnone.
    assert (Hin : In mode PowerMode.members) by (destruct mode; cbn; auto).
    specialize (Hnone Hin). discriminate Hnone.
Qed.

(** The truth value of a decoded JSON value that is not [None]. *)
Lemma truthy_falsy (x : json) :
  x <> JNull ->
  (x ∈ falsy -> Py.truthy x = false) /\ (x ∉ falsy -> Py.truthy x = true).
Proof.
  intros Hx. unfold falsy. rewrite !elem_of_cons, elem_of_nil.
  destruct x as [|b|z|s|l|o]; cbn [Py.truthy]; [contradiction| | | | |].
  - destruct b; split; intros H; first [reflexivity | exfalso].
    + destruct H as [H|[H|[H|[H|[H|[]]]]]]; discriminate H.
    + apply H. auto.
  - destruct (Z.eqb_spec z 0) as [->|Hz]; split; intros H; first [reflexivity | exfalso].
    + apply H. auto.
    + destruct H as [H|[H|[H|[H|[H|[]]]]]]; try discriminate H.
      injection H as ->. contradiction.
  - destruct (String.eqb_spec s "") as [->|Hs]; split; intros H;
      first [reflexivity | exfalso].
    + apply H. auto.
    + destruct H as [H|[H|[H|[H|[H|[]]]]]]; try discriminate H.
      injection H as ->. contradiction.
  - destruct l as [|x l]; split; intros H; first [reflexivity | exfalso].
    + apply H. auto.
    + destruct H as [H|[H|[H|[H|[H|[]]]]]]; discriminate H.
  - destruct (Nat.eqb_spec (size o) 0) as [Ho|Ho]; split; intros H;
      first [reflexivity | exfalso].
    + apply map_size_empty_inv in Ho. subst o. apply H. auto 10.
    + destruct H as [H|[H|[H|[H|[H|[]]]]]]; try discriminate H.
      injection H as ->. apply Ho. apply map_size_empty.
Qed.

(** X14.  On a snapshot that is a JSON object, [getpowermode] does nothing
    after the read and cannot fail on a missing or oddly typed field: a
    field that is absent counts as [None].  With a [PowerMode] field that
    is not [None] it returns a member whose code equals the field, or raises
    [ValueError] when no member has such a code.  Without one, [EcoMode] is
    read by its truth value: HIGH when it is [False], zero or an empty str,
    list or dict, and MEDIUM for every other value, [None] and an absent
    field included. *)
Theorem X14_getpowermode_fails_only_on_unknown_codes (env : Env)
    (value : PowerMode.t -> Z) (self : CloudRobot.t) (w w1 : world)
    (m : gmap string json) :
  CloudRobot._getinfo env self w = (Ok (JObj m), w1) ->
  let powermode := default JNull (m !! "PowerMode") in
  let isecomode := default JNull (m !! "EcoMode") in
  exists r,
    CloudRobot.getpowermode env value self w = (r, w1) /\
    (powermode <> JNull ->
     (exists mode, r = Ok mode /\ equals_int powermode (value mode)) \/
     (r = Raise ValueError /\ forall mode, ~ equals_int powermode (value mode))) /\
    (powermode = JNull ->
     (isecomode ∈ falsy -> r = Ok PowerMode.HIGH) /\
     (isecomode ∉ falsy -> r = Ok PowerMode.MEDIUM)).
Proof.
  intros H. rewrite (getpowermode_after_read env value self w m w1 H). cbv zeta.
  destruct (default JNull (m !! "PowerMode")) as [|b|v|s|l|o] eqn:Hp; cbn [Py.is_not_None].
  - destruct (default JNull (m !! "EcoMode")) as [|b|v|s|l|o] eqn:He;
      cbn [Py.is_not_None].
    { eexists. split; [reflexivity|]. split; [contradiction|]. intros _.
      split; [|reflexivity]. unfold falsy. rewrite !elem_of_cons, elem_of_nil.
      intros [E|[E|[E|[E|[E|[]]]]]]; discriminate E. }
    all: match goal with
         | |- context [Py.truthy ?x] =>
             destruct (truthy_falsy x ltac:(discriminate)) as [Hf Ht];
             destruct (Py.truthy x) eqn:Htr
         end;
         (eexists; split; [reflexivity|]; split; [contradiction|]; intros _;
          split; intros Hin;
          first [reflexivity | specialize (Hf Hin); discriminate Hf
                | specialize (Ht Hin); discriminate Ht]).
  - cbn [PowerMode.call equals_int].
    destruct (of_value_spec value (Z.b2z b)) as [(mode & -> & Hv)|[-> Hv]];
      eexists; (split; [reflexivity|]); (split; [|discriminate]); intros _.
    + left. exists mode. split; [reflexivity|]. symmetry. exact Hv.
    + right. split; [reflexivity|]. intros mode Hm. apply (Hv mode). symmetry. exact Hm.
  - cbn [PowerMode.call equals_int].
    destruct (of_value_spec value v) as [(mode & -> & Hv)|[-> Hv]];
      eexists; (split; [reflexivity|]); (split; [|discriminate]); intros _.
    + left. exists mode. split; [reflexivity|]. symmetry. exact Hv.
    + right. split; [reflexivity|]. intros mode Hm. apply (Hv mode). symmetry. exact Hm.
  - eexists. split; [reflexivity|]. split; [|discriminate]. intros _.
    right. split; [reflexivity|]. intros mode [].
  - eexists. split; [reflexivity|]. split; [|discriminate]. intros _.
    right. split; [reflexivity|]. intros mode [].
  - eexists. split; [reflexivity|]. split; [|discriminate]. intros _.
    right. split; [reflexivity|]. intros mode [].
Qed.

(** X14, on snapshots with a code that is no member, with a string for a
    code, and with a number for [EcoMode]. *)
Lemma X14_getpowermode_fails_only_on_unknown_codes_witness :
  fst (CloudRobot.getpowermode (Demo.steady (JObj {[ "PowerMode" := JInt 7 ]}))
         Demo.codes Demo.robot Demo.fresh) = Raise ValueError /\
  fst (CloudRobot.getpowermode (Demo.steady (JObj {[ "PowerMode" := JStr "HIGH" ]}))
         Demo.codes Demo.robot Demo.fresh) = Raise ValueError /\
  fst (CloudRobot.getpowermode (Demo.steady (JObj {[ "EcoMode" := JInt 0 ]}))
         Demo.codes Demo.robot Demo.fresh) = Ok PowerMode.HIGH.
Proof.
  split; [|split].
  - destruct (X14_getpowermode_fails_only_on_unknown_codes
                (Demo.steady (JObj {[ "PowerMode" := JInt 7 ]})) Demo.codes Demo.robot
                Demo.fresh _ {[ "PowerMode" := JInt 7 ]} eq_refl) as (r & Hrun & Hcode & _).
    rewrite Hrun. cbn [fst].
    destruct Hcode as [(mode & _ & Heq)|[-> _]]; [discriminate| |reflexivity].
    vm_compute in Heq. destruct mode; discriminate Heq.
  - destruct (X14_getpowermode_fails_only_on_unknown_codes
                (Demo.steady (JObj {[ "PowerMode" := JStr "HIGH" ]})) Demo.codes Demo.robot
                Demo.fresh _ {[ "PowerMode" := JStr "HIGH" ]} eq_refl)
      as (r & Hrun & Hcode & _).
    rewrite Hrun. cbn [fst].
    destruct Hcode as [(mode & _ & Heq)|[-> _]]; [discriminate| |reflexivity].
    vm_compute in Heq. destruct Heq.
  - destruct (X14_getpowermode_fails_only_on_unknown_codes
                (Demo.steady (JObj {[ "EcoMode" := JInt 0 ]})) Demo.codes Demo.robot
                Demo.fresh _ {[ "EcoMode" := JInt 0 ]} eq_refl) as (r & Hrun & _ & Heco).
    rewrite Hrun. cbn [fst].
    apply Heco; [reflexivity|]. unfold falsy. apply list_elem_of_further, list_elem_of_here.
Defined.

Lemma units_scalar cp :
  scalar cp = true -> exists us, Codec.units cp = Ok us.
Proof.
  unfold scalar, Codec.units. intros H.
  destruct (Z.leb_spec 0 cp); [|discriminate H].
  destruct (Z.leb_spec cp 0x10FFFF); [|discriminate H]. cbn [andb] in H.
  destruct (Z.ltb_spec cp 0); [lia|]. destruct (Z.ltb_spec 0x10FFFF cp); [lia|].
  cbn [orb]. destruct ((0xD800 <=? cp) && (cp <? 0xE000)); [discriminate H|].
  destruct (cp <? 0x10000); eauto.
Qed.

Lemma units_not_scalar cp :
  scalar cp = false -> Codec.units cp = Raise UnicodeEncodeError.
Proof.
  unfold scalar, Codec.units. intros H.
  destruct (Z.ltb_spec cp 0); [reflexivity|].
  destruct (Z.ltb_spec 0x10FFFF cp); [reflexivity|]. cbn [orb].
  destruct (Z.leb_spec 0 cp); [|lia]. destruct (Z.leb_spec cp 0x10FFFF); [|lia].
  cbn [andb] in H. destruct ((0xD800 <=? cp) && (cp <? 0xE000)); [reflexivity|].
  discriminate H.
Qed.

(** The encoder fails exactly on the texts with a code point that is no
    scalar value. *)
Lemma encode_units_total bo s :
  if forallb scalar s then exists bs, Codec.encode_units bo s = Ok bs
  else Codec.encode_units bo s = Raise UnicodeEncodeError.
Proof.
  induction s as [|cp s IH]; cbn [forallb Codec.encode_units]; [eauto|].
  destruct (scalar cp) eqn:Hcp; cbn [andb].
  - destruct (units_scalar cp Hcp) as [us ->].
    destruct (forallb scalar s).
    + destruct IH as [bs ->]. cbn [obind]. eauto.
    + rewrite IH. reflexivity.
  - rewrite (units_not_scalar cp Hcp). reflexivity.
Qed.

(** X15.  Building the client fails on no password that is well-formed
    text, and on every other one: when all code points of the password are
    Unicode scalar values, on either byte order, [CloudClient] is built,
    with the fixed address of the API and with the two credentials, the
    email unchanged; when one is not (a lone surrogate, as a command-line
    argument with undecodable bytes has), the constructor raises
    [UnicodeEncodeError]. *)
Theorem X15_client_is_built_for_text_passwords (bo : Codec.byteorder)
    (email : string) (pw : list Z) :
  if forallb scalar pw then
    exists c digest,
      CloudClient.init bo email pw = Ok c /\
      CloudClient.chksum bo pw = Ok digest /\
      CloudClient.apiurl c = "https://mobile.rvccloud.electrolux.com/api/v1" /\
      CloudClient.credentials c = {[ "AccountPassword" := digest; "Email" := email ]} /\
      CloudClient.httpauth c = (email, digest)
  else
    CloudClient.init bo email pw = Raise UnicodeEncodeError.
Proof.
  pose proof (encode_units_total bo (pw ++ codepoints CloudClient.salt)) as H.
  rewrite forallb_app in H.
  assert (Hsalt : forallb scalar (codepoints CloudClient.salt) = true)
    by (vm_compute; reflexivity).
  rewrite Hsalt, andb_true_r in H.
  unfold CloudClient.init, CloudClient.chksum, Codec.encode_utf_16.
  destruct (forallb scalar pw).
  - destruct H as [bs ->]. cbn [obind].
    match goal with
    | |- context [ascii_str ?d] => generalize (ascii_str d)
    end.
    intros digest. exists (CloudClient.Make
      "https://mobile.rvccloud.electrolux.com/api/v1"
      {[ "AccountPassword" := digest; "Email" := email ]} (email, digest)), digest.
    repeat split.
  - rewrite H. reflexivity.
Qed.

(** X15, on a password with a character outside the basic plane and on one
    with a lone surrogate. *)
Lemma X15_client_is_built_for_text_passwords_witness :
  (exists c, CloudClient.init Codec.Big "user@example.org" [112; 0x1F600] = Ok c) /\
  CloudClient.init Codec.Little "user@example.org" [112; 0xDC80; 113]
  = Raise UnicodeEncodeError.
Proof.
  split.
  - pose proof (X15_client_is_built_for_text_passwords Codec.Big "user@example.org"
                  [112; 0x1F600]) as H.
    change (forallb scalar [112; 0x1F600]) with true in H.
    destruct H as (c & _ & H & _). exists c. exact H.
  - exact (X15_client_is_built_for_text_passwords Codec.Little "user@example.org"
             [112; 0xDC80; 113]).
Defined.
